(** * Vendor API: registration, login, token middleware and vendor lookup

    A shallow embedding of the Express handlers of the Restaurant back end
    (controllers/vendorController.js, the token middleware and the vendor
    routes) together with the parts of bcrypt, mongoose and jsonwebtoken the
    handlers call.

    Conventions
    - A handler is a computation in the monad [M]: it threads the request's
      [State] (the database, the [res] object and the console) and either
      returns or throws, as an [async] function does between two [await]s.
    - Fields of [req.body] are [option string]: [None] is JavaScript's
      [undefined] (the key is absent), [Some s] a JSON string.
    - The values the runtime draws during a request (the bcrypt salt, the
      ObjectId of a new document, the clock) are explicit arguments.
    - ObjectIds are drawn by the driver and do not collide, so the [_id]
      index never rejects an insert and is not modelled. *)

From Stdlib Require Import String Ascii List ZArith Bool Lia DecimalString.
Import ListNotations.
Local Open Scope string_scope.
Local Open Scope Z_scope.

(** ** JSON bodies and HTTP responses *)

#[warnings="-register-all"]
Inductive Json : Type :=
| JNull
| JStr (s : string)
| JArr (items : list Json)
| JObj (fields : list (string * Json)).

(** [has_key k j]: some object nested in [j] has a field named [k]. *)
Fixpoint has_key (k : string) (j : Json) : bool :=
  match j with
  | JNull | JStr _ => false
  | JArr items =>
      (fix any (l : list Json) : bool :=
         match l with
         | [] => false
         | x :: r => has_key k x || any r
         end) items
  | JObj fields =>
      (fix any (l : list (string * Json)) : bool :=
         match l with
         | [] => false
         | (k', x) :: r => String.eqb k k' || has_key k x || any r
         end) fields
  end.

Record Response : Type := mkResponse { status : Z; body : Json }.

(** ** Documents *)

Module Firm.
Record doc : Type := mk { _id : string; firmName : string }.
End Firm.

(** models/Vendor.js: userName, email and password are required strings,
    email carries a unique index, firm is an array of Firm ObjectIds. *)
Module Vendor.
Record doc : Type := mk {
  _id : string;
  userName : string;
  email : string;
  password : string;
  firm : list string
}.

(** What [new Vendor({userName, email, password})] holds before
    validation: any of the three may still be [undefined]. *)
Record draft : Type := mkDraft {
  draft_id : string;
  draft_userName : option string;
  draft_email : option string;
  draft_password : option string
}.
End Vendor.

Record Db : Type := mkDb { vendors : list Vendor.doc; firms : list Firm.doc }.

(** ** Exceptions, console, request state *)

Inductive Exn : Type :=
| BcryptArgsRequired                 (* bcrypt: data and salt/hash arguments required *)
| ValidationError (paths : list string) (* mongoose: Path `p` is required. *)
| DuplicateKey (index : string)      (* MongoServerError E11000 *)
| CastError (value : string)         (* mongoose: Cast to ObjectId failed *)
| JsonWebTokenError (message : string) (* jwt malformed, invalid signature *)
| TokenExpiredError                  (* jwt expired *)
| TypeError (message : string)       (* reading a property of undefined *)
| HeadersSent.                       (* ERR_HTTP_HEADERS_SENT *)

Inductive LogEntry : Type :=
| LogStr (s : string)
| LogUndefined
| LogExn (e : Exn).

Record State : Type := mkState {
  db : Db;
  res : option Response;
  console : list LogEntry
}.

Inductive Outcome (A : Type) : Type :=
| Ok (a : A)
| Throw (e : Exn).
Arguments Ok {A} a.
Arguments Throw {A} e.

Definition M (A : Type) : Type := State -> Outcome A * State.

Definition ret {A} (a : A) : M A := fun st => (Ok a, st).

Definition bind {A B} (m : M A) (k : A -> M B) : M B :=
  fun st =>
    match m st with
    | (Ok a, st') => k a st'
    | (Throw e, st') => (Throw e, st')
    end.

Definition throw {A} (e : Exn) : M A := fun st => (Throw e, st).

(** [try { m } catch (error) { h error }]: the effects of [m] up to the
    throw stay. *)
Definition try_catch {A} (m : M A) (h : Exn -> M A) : M A :=
  fun st =>
    match m st with
    | (Ok a, st') => (Ok a, st')
    | (Throw e, st') => h e st'
    end.

Notation "x <- m ;; k" := (bind m (fun x => k))
  (at level 61, m at next level, right associativity).
Notation "m ;;; k" := (bind m (fun _ => k))
  (at level 61, right associativity).

(** [res.status(code).json(value)] *)
Definition res_status_json (code : Z) (value : Json) : M unit :=
  fun st =>
    match res st with
    | Some _ => (Throw HeadersSent, st)
    | None =>
        (Ok tt, {| db := db st;
                   res := Some {| status := code; body := value |};
                   console := console st |})
    end.

Definition console_log (entry : LogEntry) : M unit :=
  fun st =>
    (Ok tt, {| db := db st; res := res st;
               console := console st ++ [entry] |}).

Definition log_value (v : option string) : LogEntry :=
  match v with
  | Some s => LogStr s
  | None => LogUndefined
  end.

(** ** mongoose: the Vendor model *)

Definition email_is (e : option string) (v : Vendor.doc) : bool :=
  match e with
  | Some s => String.eqb (Vendor.email v) s
  | None => false
  end.

(** [Vendor.findOne({email})]: the first document, in insertion order,
    whose email equals the given string; an [undefined] email matches only
    documents without one, and every stored Vendor has one. *)
Definition Vendor_findOne (e : option string) : M (option Vendor.doc) :=
  fun st => (Ok (find (email_is e) (vendors (db st))), st).

Definition new_Vendor (oid : string) (userName email password : option string)
  : Vendor.draft :=
  {| Vendor.draft_id := oid; Vendor.draft_userName := userName;
     Vendor.draft_email := email; Vendor.draft_password := password |}.

(** [required: true] on a String path rejects [undefined] and the empty
    string. *)
Definition required (path : string) (v : option string) : list string :=
  match v with
  | Some s => if String.eqb s "" then [path] else []
  | None => [path]
  end.

Definition validate (d : Vendor.draft) : list string :=
  required "userName" (Vendor.draft_userName d)
  ++ required "email" (Vendor.draft_email d)
  ++ required "password" (Vendor.draft_password d).

Definition email_taken (e : string) (vs : list Vendor.doc) : bool :=
  existsb (fun v => String.eqb (Vendor.email v) e) vs.

(** [await newVendor.save()]: validation, then the insert, which the
    unique index on email rejects when the email is already stored. *)
Definition save (d : Vendor.draft) : M unit :=
  fun st =>
    match Vendor.draft_userName d, Vendor.draft_email d,
          Vendor.draft_password d, validate d with
    | Some u, Some e, Some p, [] =>
        if email_taken e (vendors (db st)) then
          (Throw (DuplicateKey "email_1"), st)
        else
          (Ok tt,
           {| db := {| vendors := vendors (db st)
                                  ++ [Vendor.mk (Vendor.draft_id d) u e p []];
                       firms := firms (db st) |};
              res := res st; console := console st |})
    | _, _, _, paths => (Throw (ValidationError paths), st)
    end.

(** ** ObjectIds

    An ObjectId is a value of twelve bytes.  A string of 24 hexadecimal
    digits denotes one, whatever the case of its digits a to f, and two
    ObjectIds are equal when their bytes are: [hex_lower] is the rendering
    common to all the strings that denote the same ObjectId. *)
Definition lower (c : ascii) : ascii :=
  let n := nat_of_ascii c in
  if ((65 <=? n) && (n <=? 70))%nat then ascii_of_nat (n + 32) else c.

Fixpoint hex_lower (s : string) : string :=
  match s with
  | EmptyString => EmptyString
  | String c r => String (lower c) (hex_lower r)
  end.

Definition same_object_id (a b : string) : bool :=
  String.eqb (hex_lower a) (hex_lower b).

(** [Vendor.findById(id)] after the cast of [id] to ObjectId has
    succeeded: the first document whose [_id] is that ObjectId. *)
Definition lookup_vendor (id : string) (vs : list Vendor.doc)
  : option Vendor.doc :=
  find (fun v => same_object_id (Vendor._id v) id) vs.

(** ** jsonwebtoken: tokens

    A token carries the claims and a signature over them.  Times are
    seconds since the epoch, [Math.floor(Date.now() / 1000)]. *)
Record Claims : Type := mkClaims { vendorId : string; iat : Z; exp : Z }.
Record Jws : Type := mkJws { claims : Claims; signature : string }.

(** ** Strings *)

(** [s.split(sep)] for a one-character separator. *)
Fixpoint split (sep : ascii) (s : string) : list string :=
  match s with
  | EmptyString => [EmptyString]
  | String c r =>
      if Ascii.eqb c sep then EmptyString :: split sep r
      else match split sep r with
           | w :: ws => String c w :: ws
           | [] => [String c EmptyString]
           end
  end.

(** The test [if (!token) return ...] on a value that is a string or
    [undefined]: [truthy token] is [None] when the branch is taken, and the
    string otherwise. *)
Definition truthy (token : option string) : option string :=
  match token with
  | Some s => if String.eqb s "" then None else Some s
  | None => None
  end.

Definition dec (z : Z) : string := NilZero.string_of_int (Z.to_int z).

Definition undec (s : string) : option Z :=
  option_map Z.of_int (NilZero.int_of_string s).

(** ** Library interfaces

    bcrypt's key-derivation function and its check, jsonwebtoken's HMAC
    and compact serialisation (base64url segments joined by dots) with its
    reader, and the server's signing secret are not part of the
    repository: the handlers are written over any of them. *)
Class Bcrypt : Type := {
  bcrypt_kdf : string -> Z -> string -> string;  (* data, rounds, salt *)
  bcrypt_check : string -> string -> bool        (* data, hash *)
}.

Class JsonWebToken : Type := {
  hs256 : string -> Claims -> string;            (* secret, claims *)
  jwt_compact : Jws -> string;
  jwt_parse : string -> option Jws
}.

Class Config : Type := { secretKey : string }.

Section Handlers.

Context {B : Bcrypt} {J : JsonWebToken} {C : Config}.

(** ** bcrypt

    The handlers only see [bcrypt.hash(data, rounds)] and
    [bcrypt.compare(data, hash)], both of which reject when [data] is
    [undefined]. *)
Definition bcrypt_hash (data : option string) (rounds : Z) (salt : string)
  : M string :=
  match data with
  | Some p => ret (bcrypt_kdf p rounds salt)
  | None => throw BcryptArgsRequired
  end.

Definition bcrypt_compare (data : option string) (hash : string) : M bool :=
  match data with
  | Some p => ret (bcrypt_check p hash)
  | None => throw BcryptArgsRequired
  end.

(** ** controllers/vendorController.js *)

Record Credentials : Type := mkBody {
  body_userName : option string;
  body_email : option string;
  body_password : option string
}.

Definition internal_server_error : Json :=
  JObj [("error", JStr "Internal server error")].

Definition vendorRegister (salt oid : string) (req : Credentials) : M unit :=
  let userName := body_userName req in
  let email := body_email req in
  let password := body_password req in
  try_catch
    (vendorEmail <- Vendor_findOne email ;;
     match vendorEmail with
     | Some _ => res_status_json 400 (JStr "Email already taken")
     | None =>
         hashedPassword <- bcrypt_hash password 10 salt ;;
         let newVendor := new_Vendor oid userName email (Some hashedPassword) in
         save newVendor ;;;
         res_status_json 201
           (JObj [("message", JStr "Vendor registered successfully")]) ;;;
         console_log (LogStr "registered")
     end)
    (fun error =>
       console_log (LogExn error) ;;;
       res_status_json 500 internal_server_error).

Definition vendorLogin (req : Credentials) : M unit :=
  let email := body_email req in
  let password := body_password req in
  try_catch
    (vendor <- Vendor_findOne email ;;
     rejected <- match vendor with
                 | None => ret true
                 | Some v =>
                     matches <- bcrypt_compare password (Vendor.password v) ;;
                     ret (negb matches)
                 end ;;
     if (rejected : bool) then
       res_status_json 401 (JObj [("error", JStr "Invalid username or password")])
     else
       res_status_json 200 (JObj [("success", JStr "Login successful")]) ;;;
       console_log (log_value email))
    (fun error =>
       console_log (LogExn error) ;;;
       res_status_json 500 internal_server_error).


(** Express hands a handler a fresh [res]; [serve] runs it on the current
    database and returns the state in which the request ends. *)
Definition serve (handler : M unit) (d : Db) : State :=
  snd (handler {| db := d; res := None; console := [] |}).

(** ** jsonwebtoken *)

(** [jwt.sign({vendorId}, secret, {expiresIn})] at time [now]: the claims
    with [iat] and [exp] added, signed and serialised. *)
Definition signed (subject secret : string) (expiresIn now : Z) : Jws :=
  let c := {| vendorId := subject; iat := now; exp := now + expiresIn |} in
  {| claims := c; signature := hs256 secret c |}.

Definition jwt_sign (subject secret : string) (expiresIn now : Z) : string :=
  jwt_compact (signed subject secret expiresIn now).

(** [jwt.verify(token, secret)] at time [now]: format, signature, then
    expiry ([now >= exp] is expired). *)
Definition jwt_verify (token secret : string) (now : Z) : Outcome Claims :=
  match jwt_parse token with
  | None => Throw (JsonWebTokenError "jwt malformed")
  | Some t =>
      if String.eqb (signature t) (hs256 secret (claims t)) then
        if exp (claims t) <=? now then Throw TokenExpiredError
        else Ok (claims t)
      else Throw (JsonWebTokenError "invalid signature")
  end.

(** [expiresIn: "1h"] *)
Definition one_hour : Z := 3600.

(** [const token = jwt.sign({ vendorId: vendor._id }, secretKey,
    { expiresIn: "1h" })] *)
Definition issue (vendor_id : string) (now : Z) : string :=
  jwt_sign vendor_id secretKey one_hour now.

(** ** Token middleware *)

Record Request : Type := mkRequest {
  headers_authorization : option string;
  headers_token : option string;
  params_id : string;
  req_vendorId : option string
}.

Definition set_vendorId (req : Request) (v : string) : Request :=
  {| headers_authorization := headers_authorization req;
     headers_token := headers_token req;
     params_id := params_id req;
     req_vendorId := Some v |}.

(** [req.headers.authorization?.split(" ")[1]] *)
Definition bearer_token (req : Request) : option string :=
  match headers_authorization req with
  | None => None
  | Some h => nth_error (split " "%char h) 1
  end.

(** Episode 6: [auth], with the callback form of [jwt.verify]. *)
Definition auth (now : Z) (req : Request) (next : Request -> M unit) : M unit :=
  let token := bearer_token req in
  match truthy token with
  | None => res_status_json 401 (JObj [("error", JStr "Token missing")])
  | Some t =>
      match jwt_verify t secretKey now with
      | Throw _ => res_status_json 403 (JObj [("error", JStr "Invalid token")])
      | Ok decoded => next (set_vendorId req (vendorId decoded))
      end
  end.

Definition lift {A} (o : Outcome A) : M A := fun st => (o, st).

(** Episode 8: [verifyToken], with the throwing form of [jwt.verify].
    In the source [next()] stands inside the [try], after the assignment.
    The [next] Express hands to a middleware runs the rest of the chain
    and catches what it throws itself, so the [catch] of [verifyToken]
    only ever sees an exception of [jwt.verify]: the [try] covers the
    verification, and [next] runs once it has succeeded. *)
Definition verifyToken (now : Z) (req : Request) (next : Request -> M unit)
  : M unit :=
  let token := headers_token req in
  match truthy token with
  | None => res_status_json 401 (JObj [("error", JStr "Token required")])
  | Some t =>
      verified <- try_catch
                    (decoded <- lift (jwt_verify t secretKey now) ;;
                     ret (Some (set_vendorId req (vendorId decoded))))
                    (fun _ =>
                       res_status_json 403 (JObj [("error", JStr "Invalid token")]) ;;;
                       ret None) ;;
      match verified with
      | Some req' => next req'
      | None => ret tt
      end
  end.

(** ** Vendor lookup with resolved firms *)

Record PopulatedVendor : Type := mkPopulated {
  pv_id : string;
  pv_userName : string;
  pv_email : string;
  pv_password : string;
  pv_firm : list Firm.doc
}.

Definition lookup_firm (fs : list Firm.doc) (id : string) : option Firm.doc :=
  find (fun f => same_object_id (Firm._id f) id) fs.

Fixpoint resolve (fs : list Firm.doc) (refs : list string) : list Firm.doc :=
  match refs with
  | [] => []
  | r :: rest =>
      match lookup_firm fs r with
      | Some f => f :: resolve fs rest
      | None => resolve fs rest
      end
  end.

(** [.populate('firm')]: every stored reference is replaced by the Firm
    document it names; a reference that names no document is dropped. *)
Definition populate (fs : list Firm.doc) (v : Vendor.doc) : PopulatedVendor :=
  {| pv_id := Vendor._id v; pv_userName := Vendor.userName v;
     pv_email := Vendor.email v; pv_password := Vendor.password v;
     pv_firm := resolve fs (Vendor.firm v) |}.

Definition is_hex (c : ascii) : bool :=
  let n := nat_of_ascii c in
  ((48 <=? n) && (n <=? 57) || (65 <=? n) && (n <=? 70)
   || (97 <=? n) && (n <=? 102))%nat.

Fixpoint all_hex (s : string) : bool :=
  match s with
  | EmptyString => true
  | String c r => is_hex c && all_hex r
  end.

(** The cast of a route parameter to ObjectId: 24 hexadecimal digits. *)
Definition is_object_id (id : string) : bool :=
  (String.length id =? 24)%nat && all_hex id.

(** [await Vendor.findById(vendorId).populate('firm')] *)
Definition Vendor_findById_populate (id : string) : M (option PopulatedVendor) :=
  fun st =>
    if is_object_id id then
      (Ok (option_map (populate (firms (db st)))
                      (lookup_vendor id (vendors (db st)))), st)
    else (Throw (CastError id), st).

Inductive GetVendor : Type :=
| Found (vendor : PopulatedVendor)
| NotFound
| InvalidId.

(** Modelled from the spec: the body of [getVendorById]
    (controllers/vendorController.js of the later episodes) is not among
    the sources, only its query and its route are.  Following the spec,
    [get_vendor(id)] returns the Vendor with resolved Firm data, fails with
    NotFound when no record matches, and fails with InvalidId when the
    identifier is malformed. *)
Definition getVendorById (req : Request) (d : Db) : GetVendor :=
  let vendorId := params_id req in
  match fst (Vendor_findById_populate vendorId
               {| db := d; res := None; console := [] |}) with
  | Ok (Some vendor) => Found vendor
  | Ok None => NotFound
  | Throw _ => InvalidId
  end.

(** Modelled from the spec: [GET /vendor/single-vendor/:id] answers 200
    with the vendor, 404 for NotFound (the README of episode 8 says the
    same: "If vendor doesn't exist, returns 404 error"); InvalidId is not
    handled apart and surfaces as the generic 500. *)
Definition get_vendor_status (r : GetVendor) : Z :=
  match r with
  | Found _ => 200
  | NotFound => 404
  | InvalidId => 500
  end.

(** ** Requests in flight

    Between two [await]s of one registration the event loop may run
    another request.  A [Task] is a registration suspended at one of its
    three [await]s; [step_task] resumes it up to the next one. *)
Inductive Task : Type :=
| AwaitFind (salt oid : string) (req : Credentials)
| AwaitHash (salt oid : string) (req : Credentials)
| AwaitSave (oid : string) (req : Credentials) (hashedPassword : string)
| Replied (r : Response).

Definition fresh (d : Db) : State := {| db := d; res := None; console := [] |}.

Definition step_task (t : Task) (d : Db) : Task * Db :=
  match t with
  | AwaitFind salt oid req =>
      match fst (Vendor_findOne (body_email req) (fresh d)) with
      | Ok (Some _) =>
          (Replied {| status := 400; body := JStr "Email already taken" |}, d)
      | Ok None => (AwaitHash salt oid req, d)
      | Throw _ =>
          (Replied {| status := 500; body := internal_server_error |}, d)
      end
  | AwaitHash salt oid req =>
      match fst (bcrypt_hash (body_password req) 10 salt (fresh d)) with
      | Ok hashedPassword => (AwaitSave oid req hashedPassword, d)
      | Throw _ =>
          (Replied {| status := 500; body := internal_server_error |}, d)
      end
  | AwaitSave oid req hashedPassword =>
      match save (new_Vendor oid (body_userName req) (body_email req)
                             (Some hashedPassword)) (fresh d) with
      | (Ok _, st) =>
          (Replied {| status := 201;
                      body := JObj [("message",
                                     JStr "Vendor registered successfully")] |},
           db st)
      | (Throw _, st) =>
          (Replied {| status := 500; body := internal_server_error |}, db st)
      end
  | Replied r => (Replied r, d)
  end.

Record Server : Type := mkServer { store : Db; inflight : list Task }.

Fixpoint replace_nth {A} (n : nat) (x : A) (l : list A) : list A :=
  match l, n with
  | [], _ => []
  | _ :: r, O => x :: r
  | y :: r, S n' => y :: replace_nth n' x r
  end.

(** One turn of the event loop: a registration arrives, a suspended
    registration resumes, or a login is served. *)
Inductive server_step : Server -> Server -> Prop :=
| step_arrive : forall s salt oid req,
    server_step s {| store := store s;
                     inflight := inflight s ++ [AwaitFind salt oid req] |}
| step_resume : forall s i t,
    nth_error (inflight s) i = Some t ->
    server_step s {| store := snd (step_task t (store s));
                     inflight := replace_nth i (fst (step_task t (store s)))
                                             (inflight s) |}
| step_login : forall s req,
    server_step s {| store := db (serve (vendorLogin req) (store s));
                     inflight := inflight s |}.

Inductive reachable : Server -> Prop :=
| reach_init : forall fs,
    reachable {| store := {| vendors := []; firms := fs |}; inflight := [] |}
| reach_step : forall s s',
    reachable s -> server_step s s' -> reachable s'.

(** The first two kinds of turn as functions, to run a schedule. *)
Definition arrive (salt oid : string) (req : Credentials) (s : Server) : Server :=
  {| store := store s; inflight := inflight s ++ [AwaitFind salt oid req] |}.

Definition resume (i : nat) (s : Server) : Server :=
  match nth_error (inflight s) i with
  | Some t =>
      {| store := snd (step_task t (store s));
         inflight := replace_nth i (fst (step_task t (store s))) (inflight s) |}
  | None => s
  end.

(** A registration resumed three times in a row, with nothing in
    between. *)
Definition run_task (t : Task) (d : Db) : Task * Db :=
  let (t1, d1) := step_task t d in
  let (t2, d2) := step_task t1 d1 in
  step_task t2 d2.

Definition unique_emails (d : Db) : Prop :=
  NoDup (map Vendor.email (vendors d)).

(** ** Specification vocabulary *)

(** Some stored Vendor carries the email of the request. *)
Definition registered (e : option string) (d : Db) : Prop :=
  exists v, In v (vendors d) /\ e = Some (Vendor.email v).

Definition count_email (e : string) (d : Db) : nat :=
  length (filter (fun v => String.eqb (Vendor.email v) e) (vendors d)).

Definition reply (code : Z) (value : Json) : option Response :=
  Some {| status := code; body := value |}.

(** The state in which a request ends when all that happened is an
    error response. *)
Definition rejected (code : Z) (message : string) (d : Db) : State :=
  {| db := d; res := reply code (JObj [("error", JStr message)]);
     console := [] |}.

(** No two stored Vendors have the same ObjectId (the [_id] index). *)
Definition unique_vendor_ids (d : Db) : Prop :=
  NoDup (map (fun v => hex_lower (Vendor._id v)) (vendors d)).

(** [f] is a stored Firm whose [_id] is the ObjectId [r]. *)
Definition names_firm (fs : list Firm.doc) (r : string) (f : Firm.doc) : Prop :=
  In f fs /\ same_object_id (Firm._id f) r = true.

Definition insert_vendor (v : Vendor.doc) (d : Db) : Db :=
  {| vendors := vendors d ++ [v]; firms := firms d |}.

(** A body field that is a non-empty string. *)
Definition present (v : option string) : bool :=
  match v with
  | Some s => negb (String.eqb s "")
  | None => false
  end.

Fixpoint has_space (s : string) : bool :=
  match s with
  | EmptyString => false
  | String c r => Ascii.eqb c " "%char || has_space r
  end.

(** ** The protected route

    [app.get('/vendor/dashboard', verifyToken, (req, res) => {
       res.json({ message: "Welcome Vendor" }) })] *)

(** [res.json(value)]: the status of a response is 200 unless set. *)
Definition res_json (value : Json) : M unit := res_status_json 200 value.

Definition welcome_vendor (req : Request) : M unit :=
  res_json (JObj [("message", JStr "Welcome Vendor")]).

Definition vendor_dashboard (now : Z) (req : Request) : M unit :=
  verifyToken now req welcome_vendor.

(** ** Server start-up (index.js)

    An object is its list of own properties; reading a property the
    object does not have gives [undefined]. *)
Definition JsObject : Type := list (string * string).

Fixpoint get_prop (name : string) (o : JsObject) : option string :=
  match o with
  | [] => None
  | (k, v) :: r => if String.eqb k name then Some v else get_prop name r
  end.

Definition PORT : Z := 4000.

(** How [mongoose.connect(process.env.MONGO_URI)] settles. *)
Inductive Connect : Type :=
| Connected
| Rejected (err : JsObject).

(** [.then(() => console.log("MongoDB connect successfully!!!"))
     .catch((err) => console.log(err.mesage))] *)
Definition on_connect (c : Connect) : LogEntry :=
  match c with
  | Connected => LogStr "MongoDB connect successfully!!!"
  | Rejected err => log_value (get_prop "mesage" err)
  end.

(** [app.listen(PORT, () => console.log(`server connecting on ${PORT}`))] *)
Definition on_listen : LogEntry := LogStr ("server connecting on " ++ dec PORT).

(** The console after start-up; the two callbacks run in either order. *)
Definition startup_console (c : Connect) (listen_first : bool) : list LogEntry :=
  if listen_first then [on_listen; on_connect c] else [on_connect c; on_listen].

(** The same two callbacks as server.js of the first episodes writes
    them: [console.log(err.message)]. *)
Definition on_connect_server_js (c : Connect) : LogEntry :=
  match c with
  | Connected => LogStr "MongoDB connected successfully!!!"
  | Rejected err => log_value (get_prop "message" err)
  end.

(** ** Counting successes *)

Definition created (t : Task) : nat :=
  match t with
  | Replied r => if status r =? 201 then 1%nat else 0%nat
  | _ => 0%nat
  end.

Definition successes (ts : list Task) : nat := list_sum (map created ts).

End Handlers.

(** ** A small instance of the library interfaces

    The handlers are stated over any bcrypt and any jsonwebtoken.  This
    instance (a checksum in place of the Blowfish and SHA-256 digests, a
    dotted token in place of base64url) is there to run them on concrete
    requests. *)
Module Reference.

Fixpoint checksum (s : string) : Z :=
  match s with
  | EmptyString => 7
  | String c r => (31 * checksum r + Z.of_nat (nat_of_ascii c)) mod 1000003
  end.

Definition kdf (data : string) (rounds : Z) (salt : string) : string :=
  "$2b$" ++ dec rounds ++ "$" ++ salt ++ "$" ++ dec (checksum (salt ++ data)).

Definition check (data hash : string) : bool :=
  match split "$"%char hash with
  | [_; _; _; salt; digest] => String.eqb digest (dec (checksum (salt ++ data)))
  | _ => false
  end.

Definition signing_input (c : Claims) : string :=
  vendorId c ++ "." ++ dec (iat c) ++ "." ++ dec (exp c).

Definition mac (secret : string) (c : Claims) : string :=
  dec (checksum (secret ++ signing_input c)).

Definition compact (t : Jws) : string :=
  signing_input (claims t) ++ "." ++ signature t.

Definition parse (token : string) : option Jws :=
  match split "."%char token with
  | [sub; i; e; sg] =>
      match undec i, undec e with
      | Some i', Some e' =>
          Some {| claims := {| vendorId := sub; iat := i'; exp := e' |};
                  signature := sg |}
      | _, _ => None
      end
  | _ => None
  end.

Definition secret : string := "s3cr3t".

Definition bcrypt : Bcrypt := {| bcrypt_kdf := kdf; bcrypt_check := check |}.

Definition jsonwebtoken : JsonWebToken :=
  {| hs256 := mac; jwt_compact := compact; jwt_parse := parse |}.

Definition config : Config := {| secretKey := secret |}.

End Reference.

(** ** The handlers on concrete requests *)

Module Example.
Import Reference.
#[local] Existing Instances bcrypt jsonwebtoken config.

Definition ramesh : Vendor.doc :=
  Vendor.mk "65afbd23c09e1165afbd23c0" "Ramesh" "ramesh@example.com"
            (kdf "strongpassword123" 10 "N9qo8uLOickgx2ZMRZoMye")
            ["64ab12cd34ef56ab78cd90ef"].

Definition foods : Firm.doc :=
  Firm.mk "64ab12cd34ef56ab78cd90ef" "Ramesh Foods".

Definition empty : Db := {| vendors := []; firms := [] |}.
Definition one : Db := {| vendors := [ramesh]; firms := [foods] |}.

Definition again : Credentials :=
  mkBody (Some "Ramesh") (Some "ramesh@example.com") (Some "strongpassword123").
Definition suresh : Credentials :=
  mkBody (Some "Suresh") (Some "suresh@example.com") (Some "letmein").
Definition no_password : Credentials :=
  mkBody (Some "Suresh") (Some "suresh@example.com") None.
Definition wrong_password : Credentials :=
  mkBody None (Some "ramesh@example.com") (Some "guess").
Definition stranger : Credentials :=
  mkBody None (Some "nobody@example.com") (Some "guess").

Definition salt : string := "Xk3vQ0pLr8sT1uWy5zA7bC".
Definition oid : string := "65afbd23c09e1165afbd23c1".

Definition token : string := issue "65afbd23c09e1165afbd23c0" 1000.

Definition bearer : Request :=
  mkRequest (Some ("Bearer " ++ token)) None "65afbd23c09e1165afbd23c0" None.
Definition raw : Request :=
  mkRequest None (Some token) "65afbd23c09e1165afbd23c0" None.
Definition anonymous : Request := mkRequest None None "zzz" None.
Definition absent : Request :=
  mkRequest None None "65afbd23c09e1165afbd23c9" None.

(** A downstream handler that echoes [req.vendorId]. *)
Definition dashboard (req : Request) : M unit :=
  res_status_json 200
    (JObj [("vendorId", match req_vendorId req with
                        | Some v => JStr v
                        | None => JNull
                        end)]).

(** Two registrations with the same email, resumed in turn: both pass
    the pre-check before either saves. *)
Definition race : Server :=
  resume 1 (resume 0 (resume 1 (resume 0 (resume 1 (resume 0
    (arrive salt "65afbd23c09e1165afbd23c2" suresh
       (arrive salt oid suresh
          {| store := empty; inflight := [] |}))))))).

(** A database in which the userName Suresh is in use, under another
    email. *)
Definition namesake : Db :=
  {| vendors := [Vendor.mk "65afbd23c09e1165afbd23c5" "Suresh" "other@example.com"
                           (kdf "hunter2" 10 salt) []];
     firms := [] |}.

Definition basic : Request :=
  mkRequest (Some ("Basic " ++ token)) None "" None.
Definition bare : Request := mkRequest (Some token) None "" None.
Definition doubled : Request :=
  mkRequest (Some ("Bearer  " ++ token)) None "" None.

Definition hotel : Firm.doc :=
  Firm.mk "64ab45cd34ef56ab78cd90aa" "Ramesh Hotel".

Definition mahesh : Vendor.doc :=
  Vendor.mk "65afbd23c09e1165afbd23c4" "Mahesh" "mahesh@example.com"
            (kdf "qwerty" 10 salt)
            ["64ab45cd34ef56ab78cd90aa"; "64ab12cd34ef56ab78cd90ef"].

Definition two : Db := {| vendors := [ramesh; mahesh]; firms := [foods; hotel] |}.

(** The id of Mahesh, typed in upper case. *)
Definition shouted : Request :=
  mkRequest None None "65AFBD23C09E1165AFBD23C4" None.

Definition refused : JsObject :=
  [("name", "MongooseServerSelectionError");
   ("message", "connect ECONNREFUSED 127.0.0.1:27017")].

End Example.

(** * Properties *)

Section Properties.

#[local] Set Default Proof Using "Type".

Context {B : Bcrypt} {J : JsonWebToken} {C : Config}.

(** ** mongoose: lookups *)

Lemma email_is_Some (e : string) (v : Vendor.doc) :
  email_is (Some e) v = true <-> Some e = Some (Vendor.email v).
Proof.
  simpl. rewrite String.eqb_eq. split; intros H.
  - now subst.
  - now inversion H.
Qed.

Lemma findOne_registered (e : option string) (d : Db) :
  registered e d <-> find (email_is e) (vendors d) <> None.
Proof.
  unfold registered. split.
  - intros (v & Hin & ->) Hnone.
    apply (find_none _ _ Hnone) in Hin.
    simpl in Hin. rewrite String.eqb_refl in Hin. discriminate.
  - destruct (find (email_is e) (vendors d)) as [v|] eqn:Hf; [|congruence].
    intros _. apply find_some in Hf. destruct Hf as [Hin Hv].
    exists v. split; [assumption|].
    destruct e as [e|]; [now apply email_is_Some | discriminate].
Qed.

Lemma findOne_unregistered (e : option string) (d : Db) :
  ~ registered e d <-> find (email_is e) (vendors d) = None.
Proof.
  rewrite findOne_registered.
  destruct (find (email_is e) (vendors d)); split; intros H;
    try reflexivity; try congruence.
  exfalso. apply H. discriminate.
Qed.

Lemma find_after_insert {A} (f : A -> bool) (l : list A) (x : A) :
  find f l = None -> find f (l ++ [x]) = if f x then Some x else None.
Proof.
  induction l as [|y l IH]; simpl; [reflexivity|].
  destruct (f y); [discriminate | exact IH].
Qed.

Lemma findOne_email_taken (e : string) (vs : list Vendor.doc) :
  find (email_is (Some e)) vs = None -> email_taken e vs = false.
Proof.
  induction vs as [|v vs IH]; simpl; [reflexivity|].
  destruct (String.eqb (Vendor.email v) e); [discriminate | exact IH].
Qed.

Lemma email_taken_In (e : string) (vs : list Vendor.doc) :
  email_taken e vs = false -> ~ In e (map Vendor.email vs).
Proof.
  induction vs as [|v vs IH]; simpl; [intros _ []|].
  destruct (String.eqb_spec (Vendor.email v) e) as [Heq|Hne]; simpl;
    [discriminate|].
  intros H [Hv|Hin]; [contradiction | exact (IH H Hin)].
Qed.

Lemma count_email_registered (e : string) (d : Db) :
  (0 < count_email e d)%nat -> registered (Some e) d.
Proof.
  unfold count_email, registered.
  destruct (filter _ (vendors d)) as [|v l] eqn:Hf; simpl; [lia|].
  intros _. assert (Hin : In v (filter (fun v => String.eqb (Vendor.email v) e)
                                        (vendors d))) by (rewrite Hf; now left).
  apply filter_In in Hin. destruct Hin as [Hin Hv].
  apply String.eqb_eq in Hv. exists v. split; [assumption | now subst].
Qed.

(** ** mongoose: validation *)

Lemma required_nil (path : string) (v : option string) :
  required path v = [] -> exists s, v = Some s /\ s <> "".
Proof.
  unfold required. destruct v as [s|]; [|discriminate].
  destruct (String.eqb_spec s ""); [discriminate|].
  intros _. now exists s.
Qed.

Lemma required_present (path : string) (v : option string) :
  required path v = if present v then [] else [path].
Proof.
  destruct v as [s|]; simpl; [|reflexivity].
  destruct (String.eqb s ""); reflexivity.
Qed.

Lemma validate_present (d : Vendor.draft) :
  validate d = [] <->
  present (Vendor.draft_userName d) && present (Vendor.draft_email d)
  && present (Vendor.draft_password d) = true.
Proof.
  unfold validate. rewrite !required_present.
  destruct (present (Vendor.draft_userName d)),
           (present (Vendor.draft_email d)),
           (present (Vendor.draft_password d)); simpl;
    split; intros H; try reflexivity; discriminate.
Qed.

Lemma validate_nil (d : Vendor.draft) :
  validate d = [] ->
  exists u e p,
    Vendor.draft_userName d = Some u /\ u <> "" /\
    Vendor.draft_email d = Some e /\ e <> "" /\
    Vendor.draft_password d = Some p /\ p <> "".
Proof.
  unfold validate. intros H.
  apply app_eq_nil in H. destruct H as [Hu H].
  apply app_eq_nil in H. destruct H as [He Hp].
  apply required_nil in Hu, He, Hp.
  destruct Hu as (u & -> & ?), He as (e & -> & ?), Hp as (p & -> & ?).
  now exists u, e, p.
Qed.

(** ** vendorRegister, path by path *)

Ltac run_handler :=
  unfold serve, vendorRegister, vendorLogin, try_catch, bind, ret, throw,
    Vendor_findOne, bcrypt_hash, bcrypt_compare, res_status_json,
    console_log; simpl.

Lemma vendorRegister_duplicate salt oid req d v :
  find (email_is (body_email req)) (vendors d) = Some v ->
  serve (vendorRegister salt oid req) d =
  {| db := d; res := reply 400 (JStr "Email already taken"); console := [] |}.
Proof.
  intros Hf. run_handler. rewrite Hf. reflexivity.
Qed.

Lemma vendorRegister_no_password salt oid req d :
  find (email_is (body_email req)) (vendors d) = None ->
  body_password req = None ->
  serve (vendorRegister salt oid req) d =
  {| db := d; res := reply 500 internal_server_error;
     console := [LogExn BcryptArgsRequired] |}.
Proof.
  intros Hf Hp. run_handler. rewrite Hf, Hp. reflexivity.
Qed.

Lemma vendorRegister_invalid salt oid req d p :
  find (email_is (body_email req)) (vendors d) = None ->
  body_password req = Some p ->
  validate (new_Vendor oid (body_userName req) (body_email req)
                       (Some (bcrypt_kdf p 10 salt))) <> [] ->
  serve (vendorRegister salt oid req) d =
  {| db := d; res := reply 500 internal_server_error;
     console :=
       [LogExn (ValidationError
                  (validate (new_Vendor oid (body_userName req) (body_email req)
                                        (Some (bcrypt_kdf p 10 salt)))))] |}.
Proof.
  intros Hf Hp Hv. run_handler. rewrite Hf, Hp. simpl.
  unfold save. simpl.
  destruct (validate _) as [|path paths] eqn:Hval; [congruence|].
  destruct (body_userName req), (body_email req); reflexivity.
Qed.

Lemma vendorRegister_created salt oid req d p :
  find (email_is (body_email req)) (vendors d) = None ->
  body_password req = Some p ->
  validate (new_Vendor oid (body_userName req) (body_email req)
                       (Some (bcrypt_kdf p 10 salt))) = [] ->
  exists u e,
    body_userName req = Some u /\ body_email req = Some e /\
    serve (vendorRegister salt oid req) d =
    {| db := insert_vendor (Vendor.mk oid u e (bcrypt_kdf p 10 salt) []) d;
       res := reply 201 (JObj [("message", JStr "Vendor registered successfully")]);
       console := [LogStr "registered"] |}.
Proof.
  intros Hf Hp Hv.
  destruct (validate_nil _ Hv) as (u & e & h & Hu & _ & He & _ & Hh & _).
  simpl in Hu, He, Hh. exists u, e. repeat split; try assumption.
  run_handler. rewrite Hf, Hp. simpl. unfold save. simpl.
  rewrite Hv, Hu, He. rewrite He in Hf.
  rewrite (findOne_email_taken _ _ Hf). reflexivity.
Qed.

(** ** vendorLogin, path by path *)

Lemma vendorLogin_unknown req d :
  find (email_is (body_email req)) (vendors d) = None ->
  serve (vendorLogin req) d =
  {| db := d;
     res := reply 401 (JObj [("error", JStr "Invalid username or password")]);
     console := [] |}.
Proof.
  intros Hf. run_handler. rewrite Hf. reflexivity.
Qed.

Lemma vendorLogin_checked req d v p :
  find (email_is (body_email req)) (vendors d) = Some v ->
  body_password req = Some p ->
  serve (vendorLogin req) d =
  if bcrypt_check p (Vendor.password v) then
    {| db := d; res := reply 200 (JObj [("success", JStr "Login successful")]);
       console := [log_value (body_email req)] |}
  else
    {| db := d;
       res := reply 401 (JObj [("error", JStr "Invalid username or password")]);
       console := [] |}.
Proof.
  intros Hf Hp. run_handler. rewrite Hf, Hp. simpl.
  destruct (bcrypt_check p (Vendor.password v)); reflexivity.
Qed.

Lemma vendorLogin_no_password req d v :
  find (email_is (body_email req)) (vendors d) = Some v ->
  body_password req = None ->
  serve (vendorLogin req) d =
  {| db := d; res := reply 500 internal_server_error;
     console := [LogExn BcryptArgsRequired] |}.
Proof.
  intros Hf Hp. run_handler. rewrite Hf, Hp. reflexivity.
Qed.

Lemma vendorLogin_db req d : db (serve (vendorLogin req) d) = d.
Proof.
  destruct (find (email_is (body_email req)) (vendors d)) as [v|] eqn:Hf.
  - destruct (body_password req) as [p|] eqn:Hp.
    + rewrite (vendorLogin_checked _ _ _ _ Hf Hp).
      destruct (bcrypt_check p (Vendor.password v)); reflexivity.
    + now rewrite (vendorLogin_no_password _ _ _ Hf Hp).
  - now rewrite (vendorLogin_unknown _ _ Hf).
Qed.

(** ** Registration *)

(** C1 (amended).  For every registration request: if a Vendor with the
    request's email is stored, [vendorRegister] answers 400 with the bare
    JSON string "Email already taken" and the store is unchanged.
    Otherwise, when userName and email are non-empty strings and a password
    is given, it stores one new Vendor whose password field is
    [bcrypt.hash(password, 10)] (a bcrypt hash is not the empty string)
    and answers 201 with
    {message: "Vendor registered successfully"}; when the password is
    missing, or userName or email is missing or empty, it answers 500 with
    {error: "Internal server error"} and the store is unchanged. *)
Theorem vendorRegister_outcomes salt oid req d :
  let out := serve (vendorRegister salt oid req) d in
  (registered (body_email req) d ->
   res out = reply 400 (JStr "Email already taken") /\ db out = d)
  /\
  (~ registered (body_email req) d ->
   forall u e p,
     body_userName req = Some u -> u <> "" ->
     body_email req = Some e -> e <> "" ->
     body_password req = Some p -> bcrypt_kdf p 10 salt <> "" ->
     res out = reply 201 (JObj [("message", JStr "Vendor registered successfully")])
     /\ db out = insert_vendor (Vendor.mk oid u e (bcrypt_kdf p 10 salt) []) d)
  /\
  (~ registered (body_email req) d ->
   body_password req = None \/ present (body_userName req) = false
   \/ present (body_email req) = false ->
   res out = reply 500 internal_server_error /\ db out = d).
Proof.
  cbv zeta. split; [|split].
  - intros Hreg. apply findOne_registered in Hreg.
    destruct (find (email_is (body_email req)) (vendors d)) as [v|] eqn:Hf;
      [|congruence].
    rewrite (vendorRegister_duplicate salt oid req d v Hf). now split.
  - intros Hnew u e p Hu Hu' He He' Hp Hh.
    apply findOne_unregistered in Hnew.
    destruct (vendorRegister_created salt oid req d p Hnew Hp)
      as (u0 & e0 & Hu0 & He0 & Hout).
    + apply validate_present. simpl. rewrite Hu, He. simpl.
      apply String.eqb_neq in Hu', He', Hh. now rewrite Hu', He', Hh.
    + rewrite Hout. simpl. split; [reflexivity|]. congruence.
  - intros Hnew Hbad. apply findOne_unregistered in Hnew.
    destruct (body_password req) as [p|] eqn:Hp.
    + rewrite (vendorRegister_invalid salt oid req d p Hnew Hp);
        [now split|].
      intros Hv. apply validate_present in Hv. simpl in Hv.
      destruct Hbad as [Hb|[Hb|Hb]]; [discriminate| |];
        rewrite Hb in Hv; simpl in Hv;
        try discriminate; rewrite andb_false_r in Hv; discriminate.
    + rewrite (vendorRegister_no_password salt oid req d Hnew Hp). now split.
Qed.

(** C2.  On a store that holds exactly one Vendor with email [e], a
    registration with email [e] gets the duplicate-email answer and leaves
    the store as it was: there is still exactly one Vendor with email
    [e]. *)
Theorem vendorRegister_twice salt oid req d e :
  count_email e d = 1%nat ->
  body_email req = Some e ->
  let out := serve (vendorRegister salt oid req) d in
  res out = reply 400 (JStr "Email already taken")
  /\ db out = d
  /\ count_email e (db out) = 1%nat.
Proof.
  intros Hone He out.
  assert (Hreg : registered (body_email req) d).
  { rewrite He. apply count_email_registered. lia. }
  apply findOne_registered in Hreg.
  destruct (find (email_is (body_email req)) (vendors d)) as [v|] eqn:Hf;
    [|congruence].
  subst out. rewrite (vendorRegister_duplicate salt oid req d v Hf). simpl.
  now repeat split.
Qed.

(** C6.  After a registration with a fresh email and plaintext [p], a
    lookup by that email returns the new Vendor; its password field passes
    [bcrypt.compare] against [p] and is not [p].  bcrypt's side of the
    contract is stated for this [p] and this salt: the hash it returns is
    accepted by compare, and [p] is not accepted as a hash of itself. *)
Theorem vendorRegister_stores_hash salt oid req d u e p :
  ~ registered (Some e) d ->
  body_userName req = Some u -> u <> "" ->
  body_email req = Some e -> e <> "" ->
  body_password req = Some p ->
  bcrypt_kdf p 10 salt <> "" ->
  bcrypt_check p (bcrypt_kdf p 10 salt) = true ->
  bcrypt_check p p = false ->
  exists v,
    find (email_is (Some e)) (vendors (db (serve (vendorRegister salt oid req) d)))
    = Some v
    /\ Vendor.email v = e
    /\ bcrypt_check p (Vendor.password v) = true
    /\ Vendor.password v <> p.
Proof.
  intros Hnew Hu Hu' He He' Hp Hh Hok Hself.
  rewrite <- He in Hnew. apply findOne_unregistered in Hnew.
  destruct (vendorRegister_created salt oid req d p Hnew Hp)
    as (u0 & e0 & Hu0 & He0 & Hout).
  { apply validate_present. simpl. rewrite Hu, He. simpl.
    apply String.eqb_neq in Hu', He', Hh. now rewrite Hu', He', Hh. }
  assert (e0 = e) by congruence. subst e0.
  exists (Vendor.mk oid u0 e (bcrypt_kdf p 10 salt) []).
  rewrite Hout. simpl. rewrite He in Hnew. repeat split.
  - rewrite (find_after_insert _ _ _ Hnew). simpl.
    now rewrite String.eqb_refl.
  - exact Hok.
  - intros Heq. rewrite Heq in Hok. congruence.
Qed.

(** ** Login *)

(** C3.  A login with an email no Vendor has and a login with a known
    email whose password fails [bcrypt.compare] end in the same state: the
    same 401 response with the same error body, and nothing logged. *)
Theorem vendorLogin_failures_agree d unknown known v p :
  ~ registered (body_email unknown) d ->
  find (email_is (body_email known)) (vendors d) = Some v ->
  body_password known = Some p ->
  bcrypt_check p (Vendor.password v) = false ->
  serve (vendorLogin unknown) d = serve (vendorLogin known) d
  /\ res (serve (vendorLogin known) d)
     = reply 401 (JObj [("error", JStr "Invalid username or password")]).
Proof.
  intros Hun Hf Hp Hbad. apply findOne_unregistered in Hun.
  rewrite (vendorLogin_unknown unknown d Hun).
  rewrite (vendorLogin_checked known d v p Hf Hp), Hbad. now split.
Qed.

(** C9.  A login with correct credentials is answered 200 with the body
    {success: "Login successful"}: one field, a fixed message, and no
    token anywhere in it. *)
Theorem vendorLogin_success_no_token d req v p :
  find (email_is (body_email req)) (vendors d) = Some v ->
  body_password req = Some p ->
  bcrypt_check p (Vendor.password v) = true ->
  exists r,
    res (serve (vendorLogin req) d) = Some r
    /\ status r = 200
    /\ body r = JObj [("success", JStr "Login successful")]
    /\ has_key "token" (body r) = false.
Proof.
  intros Hf Hp Hok.
  rewrite (vendorLogin_checked req d v p Hf Hp), Hok. simpl.
  eexists. repeat split.
Qed.

(** C10.  Whatever the request and however it ends (200, 401 or 500),
    [vendorLogin] leaves the database as it found it. *)
Theorem vendorLogin_read_only req d :
  db (serve (vendorLogin req) d) = d
  /\ exists r, res (serve (vendorLogin req) d) = Some r
               /\ (status r = 200 \/ status r = 401 \/ status r = 500).
Proof.
  split; [apply vendorLogin_db|].
  destruct (find (email_is (body_email req)) (vendors d)) as [v|] eqn:Hf.
  - destruct (body_password req) as [p|] eqn:Hp.
    + rewrite (vendorLogin_checked _ _ _ _ Hf Hp).
      destruct (bcrypt_check p (Vendor.password v));
        eexists; split; try reflexivity; simpl; auto.
    + rewrite (vendorLogin_no_password _ _ _ Hf Hp).
      eexists; split; try reflexivity; simpl; auto.
  - rewrite (vendorLogin_unknown _ _ Hf).
    eexists; split; try reflexivity; simpl; auto.
Qed.

(** ** Tokens *)

Lemma try_catch_returns {A} (m : M A) (h : Exn -> M A) (st : State) (a : A) :
  fst (m st) = Ok a -> try_catch m h st = m st.
Proof.
  unfold try_catch. destruct (m st) as [[x|e] st']; simpl; [reflexivity|].
  discriminate.
Qed.

Lemma split_no_space (t : string) :
  has_space t = false -> split " "%char t = [t].
Proof.
  induction t as [|c t IH]; simpl; [reflexivity|].
  destruct (Ascii.eqb c " "%char); simpl; [discriminate|].
  intros H. now rewrite (IH H).
Qed.

Lemma bearer_token_of (req : Request) (t : string) :
  headers_authorization req = Some ("Bearer " ++ t) ->
  has_space t = false ->
  bearer_token req = Some t.
Proof.
  intros Hh Ht. unfold bearer_token. rewrite Hh. simpl.
  now rewrite (split_no_space t Ht).
Qed.

Lemma truthy_nonempty (t : string) : t <> "" -> truthy (Some t) = Some t.
Proof.
  intros H. simpl. apply String.eqb_neq in H. now rewrite H.
Qed.

Lemma jwt_verify_signed (subject : string) (now t : Z) :
  let token := issue subject now in
  jwt_parse token = Some (signed subject secretKey one_hour now) ->
  jwt_verify token secretKey t =
  if now + one_hour <=? t then Throw TokenExpiredError
  else Ok {| vendorId := subject; iat := now; exp := now + one_hour |}.
Proof.
  intros token Hparse. unfold jwt_verify. rewrite Hparse. simpl.
  now rewrite String.eqb_refl.
Qed.

(** C4.  Let [token] be the token issued for [subject] at time [now], and
    suppose the serialisation reads back what it wrote for this token.
    At any time before [now + 1h], [jwt.verify] returns claims whose
    vendorId is [subject], and [auth], given [Authorization: Bearer token],
    calls [next] with [req.vendorId = subject].  At [now + 1h] and at any
    later time, [jwt.verify] throws TokenExpiredError and [auth] answers
    403 without calling [next]. *)
Theorem issued_token_verifies subject now t req next :
  let token := issue subject now in
  jwt_parse token = Some (signed subject secretKey one_hour now) ->
  has_space token = false ->
  token <> "" ->
  headers_authorization req = Some ("Bearer " ++ token) ->
  (t < now + one_hour ->
   (exists c, jwt_verify token secretKey t = Ok c /\ vendorId c = subject)
   /\ auth t req next = next (set_vendorId req subject))
  /\
  (now + one_hour <= t ->
   jwt_verify token secretKey t = Throw TokenExpiredError
   /\ auth t req next
      = res_status_json 403 (JObj [("error", JStr "Invalid token")])).
Proof.
  intros token Hparse Hsp Hne Hh.
  pose proof (jwt_verify_signed subject now t Hparse) as Hv. cbv zeta in Hv.
  fold token in Hv.
  assert (Htok : truthy (bearer_token req) = Some token).
  { rewrite (bearer_token_of req token Hh Hsp). now apply truthy_nonempty. }
  split; intros Ht.
  - destruct (Z.leb_spec (now + one_hour) t) as [Hle|_]; [lia|].
    split; [eexists; split; [exact Hv | reflexivity]|].
    unfold auth. now rewrite Htok, Hv.
  - destruct (Z.leb_spec (now + one_hour) t) as [_|Hlt]; [|lia].
    split; [exact Hv|].
    unfold auth. now rewrite Htok, Hv.
Qed.





(** ** Vendor lookup *)

Lemma same_object_id_refl (a : string) : same_object_id a a = true.
Proof.
  unfold same_object_id. apply String.eqb_refl.
Qed.

Lemma same_object_id_eq (a b : string) :
  same_object_id a b = true <-> hex_lower a = hex_lower b.
Proof.
  unfold same_object_id. apply String.eqb_eq.
Qed.

Lemma NoDup_map_eq {A K} (f : A -> K) (l : list A) (a b : A) :
  NoDup (map f l) -> In a l -> In b l -> f a = f b -> a = b.
Proof.
  induction l as [|x l IH]; simpl; [intros _ []|].
  intros Hnd Ha Hb Heq. inversion Hnd as [|? ? Hx Hl]; subst.
  destruct Ha as [->|Ha], Hb as [->|Hb].
  - reflexivity.
  - exfalso. apply Hx. rewrite Heq. now apply in_map.
  - exfalso. apply Hx. rewrite <- Heq. now apply in_map.
  - now apply IH.
Qed.

Lemma find_stored {A} (p : A -> bool) (l : list A) (a : A) :
  In a l -> p a = true -> exists b, find p l = Some b.
Proof.
  intros Hin Hp. destruct (find p l) as [b|] eqn:Hf; [now exists b|].
  rewrite (find_none _ _ Hf a Hin) in Hp. discriminate.
Qed.

Lemma lookup_vendor_stored id vs v :
  NoDup (map (fun v => hex_lower (Vendor._id v)) vs) ->
  In v vs ->
  same_object_id (Vendor._id v) id = true ->
  lookup_vendor id vs = Some v.
Proof.
  intros Hnd Hin Hid. unfold lookup_vendor.
  destruct (find_stored (fun v => same_object_id (Vendor._id v) id) vs v Hin Hid)
    as (w & Hw).
  rewrite Hw. f_equal. apply find_some in Hw. destruct Hw as [Hwin Hwid].
  apply same_object_id_eq in Hid, Hwid.
  apply (NoDup_map_eq (fun v => hex_lower (Vendor._id v)) vs w v Hnd Hwin Hin).
  congruence.
Qed.

Lemma lookup_vendor_None id vs :
  (forall v, In v vs -> same_object_id (Vendor._id v) id = false) ->
  lookup_vendor id vs = None.
Proof.
  intros Hall. unfold lookup_vendor.
  destruct (find _ vs) as [v|] eqn:Hf; [|reflexivity].
  apply find_some in Hf. destruct Hf as [Hin Heq].
  rewrite (Hall v Hin) in Heq. discriminate.
Qed.

Lemma lookup_firm_Some fs r f :
  lookup_firm fs r = Some f -> names_firm fs r f.
Proof.
  unfold lookup_firm, names_firm. intros H. now apply find_some in H.
Qed.

Lemma resolve_In fs refs f :
  In f (resolve fs refs) -> exists r, In r refs /\ names_firm fs r f.
Proof.
  induction refs as [|r refs IH]; simpl; [intros []|].
  destruct (lookup_firm fs r) as [g|] eqn:Hg.
  - intros [<-|Hin].
    + exists r. split; [now left | now apply lookup_firm_Some].
    + destruct (IH Hin) as (r' & Hr' & Hn). exists r'. split; [now right|easy].
  - intros Hin. destruct (IH Hin) as (r' & Hr' & Hn).
    exists r'. split; [now right|easy].
Qed.

Lemma resolve_all fs refs :
  (forall r, In r refs -> exists f, names_firm fs r f) ->
  Forall2 (names_firm fs) refs (resolve fs refs).
Proof.
  induction refs as [|r refs IH]; simpl; intros Hall; [constructor|].
  destruct (Hall r (or_introl eq_refl)) as (f & Hin & Hid).
  destruct (find_stored (fun f => same_object_id (Firm._id f) r) fs f Hin Hid)
    as (g & Hg).
  unfold lookup_firm at 1. rewrite Hg. constructor.
  - now apply lookup_firm_Some.
  - apply IH. intros r' Hr'. apply Hall. now right.
Qed.

(** C7.  [getVendorById], on a collection whose ObjectIds are distinct.
    When a stored Vendor has the ObjectId the identifier denotes, the
    result is that Vendor (its id, userName, email and password) with a
    firm list made of stored Firm documents named by its references: all
    of them, one per reference and in order, when every reference names a
    stored Firm; status 200.  When the identifier is well formed and no
    stored Vendor has that ObjectId, NotFound, status 404.  When the
    identifier is malformed, the query throws a CastError and the result
    is InvalidId. *)
Theorem getVendorById_outcomes req d :
  let id := params_id req in
  (is_object_id id = true ->
   unique_vendor_ids d ->
   forall v,
     In v (vendors d) ->
     same_object_id (Vendor._id v) id = true ->
     exists pv,
       getVendorById req d = Found pv
       /\ get_vendor_status (getVendorById req d) = 200
       /\ pv_id pv = Vendor._id v
       /\ pv_userName pv = Vendor.userName v
       /\ pv_email pv = Vendor.email v
       /\ pv_password pv = Vendor.password v
       /\ (forall f, In f (pv_firm pv) ->
             exists r, In r (Vendor.firm v) /\ names_firm (firms d) r f)
       /\ ((forall r, In r (Vendor.firm v) -> exists f, names_firm (firms d) r f) ->
           Forall2 (names_firm (firms d)) (Vendor.firm v) (pv_firm pv)))
  /\
  (is_object_id id = true ->
   (forall v, In v (vendors d) -> same_object_id (Vendor._id v) id = false) ->
   getVendorById req d = NotFound
   /\ get_vendor_status (getVendorById req d) = 404)
  /\
  (is_object_id id = false ->
   getVendorById req d = InvalidId
   /\ forall st, fst (Vendor_findById_populate id st) = Throw (CastError id)).
Proof.
  cbv zeta. unfold getVendorById, Vendor_findById_populate. simpl.
  split; [|split].
  - intros Hid Hnd v Hin Hv.
    rewrite Hid, (lookup_vendor_stored _ _ v Hnd Hin Hv). simpl.
    exists (populate (firms d) v). simpl.
    repeat (split; [reflexivity|]). split.
    + apply resolve_In.
    + apply resolve_all.
  - intros Hid Hnone. rewrite Hid, (lookup_vendor_None _ _ Hnone). now split.
  - intros Hid. rewrite Hid. now split.
Qed.

(** ** Email uniqueness *)

Lemma NoDup_snoc {A} (l : list A) (x : A) :
  NoDup l -> ~ In x l -> NoDup (l ++ [x]).
Proof.
  induction l as [|y l IH]; simpl; intros Hnd Hx.
  - constructor; [intros [] | constructor].
  - inversion Hnd as [|? ? Hy Hl]; subst. constructor.
    + rewrite in_app_iff. simpl. intros [Hin|[Heq|[]]]; [exact (Hy Hin)|].
      apply Hx. now left.
    + apply IH; [assumption|]. intros Hin. apply Hx. now right.
Qed.

Lemma save_unique_emails (dr : Vendor.draft) (st : State) :
  unique_emails (db st) -> unique_emails (db (snd (save dr st))).
Proof.
  intros Hinv. unfold save.
  destruct (Vendor.draft_userName dr) as [u|]; [|exact Hinv].
  destruct (Vendor.draft_email dr) as [e|]; [|exact Hinv].
  destruct (Vendor.draft_password dr) as [p|]; [|exact Hinv].
  destruct (validate dr); [|exact Hinv].
  destruct (email_taken e (vendors (db st))) eqn:Ht; [exact Hinv|].
  unfold unique_emails. simpl. rewrite map_app. simpl.
  apply NoDup_snoc; [exact Hinv | now apply email_taken_In].
Qed.

Lemma step_task_unique_emails (t : Task) (d : Db) :
  unique_emails d -> unique_emails (snd (step_task t d)).
Proof.
  intros Hinv. destruct t as [salt oid req|salt oid req|oid req h|r]; simpl.
  - destruct (find _ (vendors d)); exact Hinv.
  - destruct (body_password req); exact Hinv.
  - pose proof (save_unique_emails
                  (new_Vendor oid (body_userName req) (body_email req) (Some h))
                  (fresh d) Hinv) as Hs.
    destruct (save _ (fresh d)) as [[?|?] st]; exact Hs.
  - exact Hinv.
Qed.

Lemma server_step_unique_emails (s s' : Server) :
  server_step s s' -> unique_emails (store s) -> unique_emails (store s').
Proof.
  intros Hstep Hinv. destruct Hstep; simpl.
  - exact Hinv.
  - now apply step_task_unique_emails.
  - now rewrite vendorLogin_db.
Qed.

Lemma reachable_arrive salt oid req s :
  reachable s -> reachable (arrive salt oid req s).
Proof.
  intros H. eapply reach_step; [exact H | apply step_arrive].
Defined.

Lemma reachable_resume i s : reachable s -> reachable (resume i s).
Proof.
  intros H. unfold resume.
  destruct (nth_error (inflight s) i) as [t|] eqn:Ht; [|exact H].
  eapply reach_step; [exact H | now apply step_resume].
Defined.

(** The suspended registration is the handler: run without interruption
    it sends the response of [vendorRegister] and leaves its database. *)
Lemma run_task_vendorRegister salt oid req d :
  exists r,
    res (serve (vendorRegister salt oid req) d) = Some r
    /\ run_task (AwaitFind salt oid req) d
       = (Replied r, db (serve (vendorRegister salt oid req) d)).
Proof.
  unfold run_task. run_handler.
  destruct (find (email_is (body_email req)) (vendors d)) eqn:Hf; simpl.
  { eexists. split; reflexivity. }
  destruct (body_password req) as [p|]; simpl.
  2: { eexists. split; reflexivity. }
  unfold save. simpl.
  destruct (body_userName req) as [u|], (body_email req) as [e|];
    destruct (validate _); simpl;
    try (eexists; split; reflexivity).
  destruct (email_taken e (vendors d)); simpl; eexists; split; reflexivity.
Qed.

(** C8.  In every state the server can reach from an empty Vendor
    collection, by registrations interleaved at their [await]s in any
    order and by logins, no two Vendors share an email. *)
Theorem reachable_unique_emails (s : Server) :
  reachable s -> unique_emails (store s).
Proof.
  induction 1 as [fs|s s' _ IH Hstep].
  - constructor.
  - exact (server_step_unique_emails s s' Hstep IH).
Qed.

(** * Further properties of the handlers *)

(** ** Every request is answered *)



Lemma vendorRegister_cases salt oid req d :
  (exists v, find (email_is (body_email req)) (vendors d) = Some v)
  \/ (find (email_is (body_email req)) (vendors d) = None
      /\ body_password req = None)
  \/ (exists p,
        find (email_is (body_email req)) (vendors d) = None
        /\ body_password req = Some p
        /\ validate (new_Vendor oid (body_userName req) (body_email req)
                                (Some (bcrypt_kdf p 10 salt))) <> [])
  \/ (exists p,
        find (email_is (body_email req)) (vendors d) = None
        /\ body_password req = Some p
        /\ validate (new_Vendor oid (body_userName req) (body_email req)
                                (Some (bcrypt_kdf p 10 salt))) = []).
Proof.
  destruct (find (email_is (body_email req)) (vendors d)) as [v|];
    [left; now exists v|right].
  destruct (body_password req) as [p|]; [right|left; now split].
  destruct (validate (new_Vendor oid (body_userName req) (body_email req)
                                 (Some (bcrypt_kdf p 10 salt)))) eqn:Hv;
    [right|left]; exists p; repeat split; congruence.
Qed.


(** ** What a registration leaves alone *)

(** X2.  A registration never changes or removes a stored Vendor and
    never touches the firms: the collection afterwards is the one before
    with at most one document appended, and that document carries the
    drawn ObjectId, the request's userName and email, and no firm. *)
Theorem vendorRegister_appends_only salt oid req d :
  let out := serve (vendorRegister salt oid req) d in
  firms (db out) = firms d
  /\ exists added,
       vendors (db out) = (vendors d ++ added)%list
       /\ (length added <= 1)%nat
       /\ forall v, In v added ->
            Vendor._id v = oid
            /\ body_userName req = Some (Vendor.userName v)
            /\ body_email req = Some (Vendor.email v)
            /\ Vendor.firm v = [].
Proof.
  cbv zeta.
  destruct (vendorRegister_cases salt oid req d)
    as [(v & Hf)|[(Hf & Hp)|[(p & Hf & Hp & Hv)|(p & Hf & Hp & Hv)]]].
  - rewrite (vendorRegister_duplicate _ _ _ _ _ Hf). simpl.
    split; [reflexivity|]. exists []. rewrite app_nil_r.
    split; [reflexivity|]. split; [simpl; lia|]. intros ? [].
  - rewrite (vendorRegister_no_password _ _ _ _ Hf Hp). simpl.
    split; [reflexivity|]. exists []. rewrite app_nil_r.
    split; [reflexivity|]. split; [simpl; lia|]. intros ? [].
  - rewrite (vendorRegister_invalid _ _ _ _ _ Hf Hp Hv). simpl.
    split; [reflexivity|]. exists []. rewrite app_nil_r.
    split; [reflexivity|]. split; [simpl; lia|]. intros ? [].
  - destruct (vendorRegister_created _ _ _ _ _ Hf Hp Hv)
      as (u & e & Hu & He & ->). simpl.
    split; [reflexivity|]. eexists. split; [reflexivity|].
    split; [simpl; lia|]. intros v [<-|[]]. simpl. now repeat split.
Qed.

(** X3.  The answer to a registration depends on the stored Vendors only
    through whether one of them has the request's email: on two databases
    that agree on that, the response and the console output are the same.
    In particular a userName already in use changes nothing. *)
Theorem vendorRegister_reads_emails_only salt oid req d1 d2 :
  (registered (body_email req) d1 <-> registered (body_email req) d2) ->
  res (serve (vendorRegister salt oid req) d1)
  = res (serve (vendorRegister salt oid req) d2)
  /\ console (serve (vendorRegister salt oid req) d1)
     = console (serve (vendorRegister salt oid req) d2).
Proof.
  intros Hsame.
  destruct (vendorRegister_cases salt oid req d1)
    as [(v & Hf)|Hnew].
  - assert (Hr : registered (body_email req) d2).
    { apply Hsame, findOne_registered. congruence. }
    apply findOne_registered in Hr.
    destruct (find (email_is (body_email req)) (vendors d2)) as [v2|] eqn:Hf2;
      [|congruence].
    rewrite (vendorRegister_duplicate _ _ _ _ _ Hf),
            (vendorRegister_duplicate _ _ _ _ _ Hf2). now split.
  - assert (Hf2 : find (email_is (body_email req)) (vendors d2) = None).
    { apply findOne_unregistered. intros Hr. apply Hsame in Hr.
      apply findOne_registered in Hr.
      destruct Hnew as [(Hf & _)|[(p & Hf & _)|(p & Hf & _)]]; congruence. }
    destruct Hnew as [(Hf & Hp)|[(p & Hf & Hp & Hv)|(p & Hf & Hp & Hv)]].
    + rewrite (vendorRegister_no_password _ _ _ _ Hf Hp),
              (vendorRegister_no_password _ _ _ _ Hf2 Hp). now split.
    + rewrite (vendorRegister_invalid _ _ _ _ _ Hf Hp Hv),
              (vendorRegister_invalid _ _ _ _ _ Hf2 Hp Hv). now split.
    + destruct (vendorRegister_created _ _ _ _ _ Hf Hp Hv)
        as (u & e & _ & _ & ->).
      destruct (vendorRegister_created _ _ _ _ _ Hf2 Hp Hv)
        as (u2 & e2 & _ & _ & ->). now split.
Qed.

(** ** Registration followed by another request *)

Lemma vendorRegister_then_findOne salt oid req d u e p :
  ~ registered (Some e) d ->
  body_userName req = Some u -> u <> "" ->
  body_email req = Some e -> e <> "" ->
  body_password req = Some p ->
  bcrypt_kdf p 10 salt <> "" ->
  db (serve (vendorRegister salt oid req) d)
  = insert_vendor (Vendor.mk oid u e (bcrypt_kdf p 10 salt) []) d
  /\ find (email_is (Some e)) (vendors (db (serve (vendorRegister salt oid req) d)))
     = Some (Vendor.mk oid u e (bcrypt_kdf p 10 salt) []).
Proof.
  intros Hnew Hu Hu' He He' Hp Hh.
  rewrite <- He in Hnew. apply findOne_unregistered in Hnew.
  destruct (vendorRegister_created salt oid req d p Hnew Hp)
    as (u0 & e0 & Hu0 & He0 & Hout).
  { apply validate_present. simpl. rewrite Hu, He. simpl.
    apply String.eqb_neq in Hu', He', Hh. now rewrite Hu', He', Hh. }
  assert (u0 = u) by congruence. assert (e0 = e) by congruence. subst.
  rewrite Hout. simpl. split; [reflexivity|].
  rewrite He in Hnew. rewrite (find_after_insert _ _ _ Hnew). simpl.
  now rewrite String.eqb_refl.
Qed.

(** X4.  Register, then log in.  After a registration that stored a
    Vendor, a login with the same email is answered 200 when its password
    passes [bcrypt.compare] against the hash made at registration, and
    401 when it does not; whatever userName the login carries. *)
Theorem register_then_login salt oid req d u e p login q :
  ~ registered (Some e) d ->
  body_userName req = Some u -> u <> "" ->
  body_email req = Some e -> e <> "" ->
  body_password req = Some p ->
  bcrypt_kdf p 10 salt <> "" ->
  body_email login = Some e ->
  body_password login = Some q ->
  res (serve (vendorLogin login) (db (serve (vendorRegister salt oid req) d)))
  = if bcrypt_check q (bcrypt_kdf p 10 salt)
    then reply 200 (JObj [("success", JStr "Login successful")])
    else reply 401 (JObj [("error", JStr "Invalid username or password")]).
Proof.
  intros Hnew Hu Hu' He He' Hp Hh Hle Hlq.
  destruct (vendorRegister_then_findOne salt oid req d u e p
              Hnew Hu Hu' He He' Hp Hh) as [_ Hfind].
  rewrite <- Hle in Hfind.
  rewrite (vendorLogin_checked login _ _ q Hfind Hlq). simpl.
  destruct (bcrypt_check q (bcrypt_kdf p 10 salt)); reflexivity.
Qed.

(** X5.  Register, then register again.  After a registration that
    stored a Vendor, any further registration with that email, with any
    userName and any password or none, is answered 400 and changes
    nothing. *)
Theorem register_then_register salt oid req d u e p salt' oid' req' :
  ~ registered (Some e) d ->
  body_userName req = Some u -> u <> "" ->
  body_email req = Some e -> e <> "" ->
  body_password req = Some p ->
  bcrypt_kdf p 10 salt <> "" ->
  body_email req' = Some e ->
  let d' := db (serve (vendorRegister salt oid req) d) in
  res (serve (vendorRegister salt' oid' req') d')
  = reply 400 (JStr "Email already taken")
  /\ db (serve (vendorRegister salt' oid' req') d') = d'.
Proof.
  intros Hnew Hu Hu' He He' Hp Hh He2 d'.
  destruct (vendorRegister_then_findOne salt oid req d u e p
              Hnew Hu Hu' He He' Hp Hh) as [_ Hfind].
  rewrite <- He2 in Hfind. fold d' in Hfind.
  rewrite (vendorRegister_duplicate salt' oid' req' d' _ Hfind). now split.
Qed.

(** ** What a login writes to the console *)

(** X6.  A login writes the email to the console when, and only when, it
    is answered 200; a refused login writes nothing, and a login that
    fails on a missing password writes the bcrypt error.  The password is
    never written. *)
Theorem vendorLogin_console req d :
  let out := serve (vendorLogin req) d in
  exists r,
    res out = Some r
    /\ ((status r = 200 /\ console out = [log_value (body_email req)])
        \/ (status r = 401 /\ console out = [])
        \/ (status r = 500 /\ console out = [LogExn BcryptArgsRequired])).
Proof.
  cbv zeta.
  destruct (find (email_is (body_email req)) (vendors d)) as [v|] eqn:Hf.
  - destruct (body_password req) as [p|] eqn:Hp.
    + rewrite (vendorLogin_checked _ _ _ _ Hf Hp).
      destruct (bcrypt_check p (Vendor.password v));
        eexists; (split; [reflexivity|]); simpl; auto.
    + rewrite (vendorLogin_no_password _ _ _ Hf Hp).
      eexists; (split; [reflexivity|]); simpl; auto.
  - rewrite (vendorLogin_unknown _ _ Hf).
    eexists; (split; [reflexivity|]); simpl; auto.
Qed.

(** ** Registrations in flight *)

Lemma save_rejects_taken (dr : Vendor.draft) (st : State) (e : string) :
  Vendor.draft_email dr = Some e ->
  email_taken e (vendors (db st)) = true ->
  exists ex, save dr st = (Throw ex, st).
Proof.
  intros He Ht. unfold save. rewrite He.
  destruct (Vendor.draft_userName dr), (Vendor.draft_password dr),
           (validate dr); try (eexists; reflexivity).
  rewrite Ht. eexists; reflexivity.
Qed.

(** X7.  A registration that passed the pre-check and finds its email
    stored when it comes to save is answered 500 Internal server error,
    not the 400 of a duplicate, and stores nothing. *)
Theorem late_duplicate_is_500 oid req hashedPassword d e :
  body_email req = Some e ->
  email_taken e (vendors d) = true ->
  step_task (AwaitSave oid req hashedPassword) d
  = (Replied {| status := 500; body := internal_server_error |}, d).
Proof.
  intros He Ht. unfold step_task.
  destruct (save_rejects_taken
              (new_Vendor oid (body_userName req) (body_email req)
                          (Some hashedPassword)) (fresh d) e He Ht)
    as (ex & ->).
  reflexivity.
Qed.

(** However the store changes between its turns, a registration has
    answered after three of them. *)
Lemma registration_answers_in_three salt oid req d1 d2 d3 :
  exists r,
    fst (step_task (fst (step_task (fst (step_task (AwaitFind salt oid req) d1))
                                   d2)) d3)
    = Replied r.
Proof.
  simpl. destruct (find _ (vendors d1)); simpl; [eexists; reflexivity|].
  destruct (body_password req); simpl; [|eexists; reflexivity].
  destruct (save _ (fresh d3)) as [[?|?] st]; eexists; reflexivity.
Qed.

Lemma successes_app ts us : successes (ts ++ us) = (successes ts + successes us)%nat.
Proof.
  unfold successes. now rewrite map_app, list_sum_app.
Qed.

Lemma successes_replace_nth i t t' ts :
  nth_error ts i = Some t ->
  (successes (replace_nth i t' ts) + created t = successes ts + created t')%nat.
Proof.
  revert i. induction ts as [|x ts IH]; intros [|i] H; simpl in *;
    try discriminate.
  - inversion H; subst. unfold successes. simpl. lia.
  - specialize (IH i H). unfold successes in *. simpl. lia.
Qed.

Lemma save_counts (dr : Vendor.draft) (st : State) :
  match save dr st with
  | (Ok _, st') => length (vendors (db st')) = S (length (vendors (db st)))
  | (Throw _, st') => db st' = db st
  end.
Proof.
  unfold save.
  destruct (Vendor.draft_userName dr), (Vendor.draft_email dr),
           (Vendor.draft_password dr), (validate dr); try reflexivity.
  destruct (email_taken _ _); [reflexivity|]. simpl.
  rewrite length_app. simpl. lia.
Qed.

Lemma step_task_counts (t : Task) (d : Db) :
  (length (vendors (snd (step_task t d))) + created t
   = length (vendors d) + created (fst (step_task t d)))%nat.
Proof.
  destruct t as [salt oid req|salt oid req|oid req h|r]; simpl.
  - destruct (find _ (vendors d)); simpl; lia.
  - destruct (body_password req); simpl; lia.
  - pose proof (save_counts
                  (new_Vendor oid (body_userName req) (body_email req) (Some h))
                  (fresh d)) as Hs.
    destruct (save _ (fresh d)) as [[?|?] st]; simpl in *.
    + rewrite Hs. lia.
    + rewrite Hs. lia.
  - lia.
Qed.

(** X8.  In every state the server can reach from an empty Vendor
    collection, there are as many stored Vendors as registrations answered
    201: each success stored exactly one Vendor, and nothing else stores
    one. *)
Theorem reachable_successes (s : Server) :
  reachable s -> successes (inflight s) = length (vendors (store s)).
Proof.
  induction 1 as [fs|s s' _ IH Hstep]; [reflexivity|].
  destruct Hstep as [s salt oid req|s i t Ht|s req]; simpl.
  - rewrite successes_app, IH. unfold successes. simpl. lia.
  - pose proof (successes_replace_nth i t (fst (step_task t (store s)))
                  (inflight s) Ht) as Hr.
    pose proof (step_task_counts t (store s)) as Hc. lia.
  - now rewrite vendorLogin_db.
Qed.

(** ** The Authorization header *)

Lemma split_word (w rest : string) :
  has_space w = false ->
  split " "%char (w ++ " " ++ rest) = w :: split " "%char rest.
Proof.
  induction w as [|c w IH]; simpl; [reflexivity|].
  destruct (Ascii.eqb c " "%char); simpl; [discriminate|].
  intros H. simpl in IH. now rewrite (IH H).
Qed.

(** X9.  [auth] never looks at the scheme.  Whatever word [w] stands
    before the first space of the header (Bearer, Basic, nothing at all),
    the word after it is taken as the token and decides the outcome. *)
Theorem auth_ignores_scheme now req next w t :
  has_space w = false ->
  has_space t = false ->
  t <> "" ->
  headers_authorization req = Some (w ++ " " ++ t) ->
  auth now req next
  = match jwt_verify t secretKey now with
    | Ok decoded => next (set_vendorId req (vendorId decoded))
    | Throw _ => res_status_json 403 (JObj [("error", JStr "Invalid token")])
    end.
Proof.
  intros Hw Ht Hne Hh. unfold auth, bearer_token. rewrite Hh.
  rewrite (split_word w t Hw), (split_no_space t Ht). simpl.
  apply String.eqb_neq in Hne. rewrite Hne.
  destruct (jwt_verify t secretKey now); reflexivity.
Qed.

(** X10.  A header without a second word is a missing token: [auth]
    answers 401 Token missing when the header has no space (a bare token,
    without scheme), and when the first space is followed by another
    space, whatever comes after. *)
Theorem auth_needs_second_word now req next :
  (forall h,
     has_space h = false ->
     headers_authorization req = Some h ->
     auth now req next
     = res_status_json 401 (JObj [("error", JStr "Token missing")]))
  /\
  (forall w rest,
     has_space w = false ->
     headers_authorization req = Some (w ++ "  " ++ rest) ->
     auth now req next
     = res_status_json 401 (JObj [("error", JStr "Token missing")])).
Proof.
  split.
  - intros h Hh Hreq. unfold auth, bearer_token.
    now rewrite Hreq, (split_no_space h Hh).
  - intros w rest Hw Hreq. unfold auth, bearer_token. rewrite Hreq.
    change (w ++ "  " ++ rest) with (w ++ " " ++ (" " ++ rest)).
    now rewrite (split_word w _ Hw).
Qed.

(** ** The protected route *)

(** X11.  [GET /vendor/dashboard] sends the welcome message exactly when
    the request has a token header that [jwt.verify] accepts; in every
    case the database is left as it was. *)
Theorem vendor_dashboard_guarded now req d :
  let out := serve (vendor_dashboard now req) d in
  db out = d
  /\ (res out = reply 200 (JObj [("message", JStr "Welcome Vendor")])
      <-> exists t decoded,
            truthy (headers_token req) = Some t
            /\ jwt_verify t secretKey now = Ok decoded).
Proof.
  cbv zeta. unfold serve, vendor_dashboard, verifyToken.
  destruct (truthy (headers_token req)) as [t|] eqn:Ht.
  - destruct (jwt_verify t secretKey now) as [decoded|e] eqn:Hv.
    + unfold try_catch, bind, lift. simpl.
      split; [reflexivity|]. split; [|reflexivity].
      intros _. now exists t, decoded.
    + unfold try_catch, bind, lift. simpl.
      split; [reflexivity|]. split; [discriminate|].
      intros (t' & decoded & Heq & Hok). congruence.
  - simpl. split; [reflexivity|]. split; [discriminate|].
    intros (t' & decoded & Heq & _). discriminate.
Qed.

(** X12.  A token issued at [now] and sent in the token header opens the
    dashboard at every time before [now + 1h], and is answered 403 Invalid
    token from [now + 1h] on. *)
Theorem issued_token_opens_dashboard subject now t req d :
  let token := issue subject now in
  jwt_parse token = Some (signed subject secretKey one_hour now) ->
  token <> "" ->
  headers_token req = Some token ->
  res (serve (vendor_dashboard t req) d)
  = if now + one_hour <=? t
    then reply 403 (JObj [("error", JStr "Invalid token")])
    else reply 200 (JObj [("message", JStr "Welcome Vendor")]).
Proof.
  intros token Hparse Hne Hh.
  pose proof (jwt_verify_signed subject now t Hparse) as Hv. cbv zeta in Hv.
  fold token in Hv.
  unfold serve, vendor_dashboard, verifyToken.
  rewrite Hh, (truthy_nonempty token Hne).
  unfold try_catch, bind, lift. rewrite Hv.
  destruct (now + one_hour <=? t); reflexivity.
Qed.

(** ** Queries *)

(** X14.  Register, then look up by id.  After a registration that stored
    a Vendor under a well-formed ObjectId no other Vendor has,
    [Vendor.findById(oid).populate('firm')] returns that Vendor: the
    request's userName and email, the bcrypt hash, and no firm. *)
Theorem register_then_findById salt oid req d u e p :
  ~ registered (Some e) d ->
  body_userName req = Some u -> u <> "" ->
  body_email req = Some e -> e <> "" ->
  body_password req = Some p ->
  bcrypt_kdf p 10 salt <> "" ->
  is_object_id oid = true ->
  lookup_vendor oid (vendors d) = None ->
  fst (Vendor_findById_populate oid
         (fresh (db (serve (vendorRegister salt oid req) d))))
  = Ok (Some {| pv_id := oid; pv_userName := u; pv_email := e;
                pv_password := bcrypt_kdf p 10 salt; pv_firm := [] |}).
Proof.
  intros Hnew Hu Hu' He He' Hp Hh Hoid Hid.
  destruct (vendorRegister_then_findOne salt oid req d u e p
              Hnew Hu Hu' He He' Hp Hh) as [-> _].
  unfold Vendor_findById_populate. rewrite Hoid. simpl.
  unfold lookup_vendor in *. rewrite (find_after_insert _ _ _ Hid). simpl.
  now rewrite same_object_id_refl.
Qed.

(** ** [split] *)

Lemma split_nonempty (sep : ascii) (s : string) : split sep s <> [].
Proof.
  destruct s as [|c r]; simpl; [discriminate|].
  destruct (Ascii.eqb c sep); [discriminate|].
  destruct (split sep r); discriminate.
Qed.

(** X15.  [split] loses nothing: it always returns at least one piece,
    and joining the pieces with the separator gives the string back. *)
Theorem split_join (sep : ascii) (s : string) :
  split sep s <> []
  /\ String.concat (String sep EmptyString) (split sep s) = s.
Proof.
  split; [apply split_nonempty|].
  induction s as [|c r IH]; simpl; [reflexivity|].
  destruct (Ascii.eqb_spec c sep) as [->|Hne].
  - pose proof (split_nonempty sep r) as Hn.
    destruct (split sep r) as [|w ws] eqn:Hs; [congruence|].
    simpl in *. now rewrite IH.
  - pose proof (split_nonempty sep r) as Hn.
    destruct (split sep r) as [|w ws] eqn:Hs; [congruence|].
    simpl in *. destruct ws as [|w' ws']; simpl in *; now rewrite <- IH.
Qed.

(** ** Server start-up *)

(** X16.  When the connection to MongoDB is rejected with an error that
    has a [message] and, like every Error, no property [mesage], index.js
    writes [undefined] to the console and not the message, in whichever
    order the two callbacks run; the callback of server.js, which reads
    [err.message], writes the message. *)
Theorem startup_logs_undefined err message listen_first :
  get_prop "mesage" err = None ->
  get_prop "message" err = Some message ->
  In LogUndefined (startup_console (Rejected err) listen_first)
  /\ (forall entry,
        In entry (startup_console (Rejected err) listen_first) ->
        entry = LogUndefined \/ entry = LogStr "server connecting on 4000")
  /\ on_connect_server_js (Rejected err) = LogStr message.
Proof.
  intros Hno Hmsg. unfold startup_console, on_connect_server_js. simpl.
  rewrite Hno, Hmsg. simpl.
  destruct listen_first; simpl; (split; [auto|]); (split; [|reflexivity]);
    intros entry [<-|[<-|[]]]; auto.
Qed.

End Properties.

Import Reference Example.
#[local] Existing Instances bcrypt jsonwebtoken config.

Ltac compute_it := vm_compute; first [reflexivity | discriminate].

Lemma ramesh_registered : registered (Some "ramesh@example.com") one.
Proof.
  exists ramesh. split; [now left | reflexivity].
Defined.

Lemma suresh_unregistered : ~ registered (Some "suresh@example.com") one.
Proof.
  intros (v & [<-|[]] & Heq). discriminate.
Defined.

(** The claim C1 as the spec words it fails twice: the duplicate-email
    body is a bare string, not an object with an [error] field; and a
    request with a fresh email but no password is answered 500 and stores
    nothing. *)
Lemma vendorRegister_claim_fails :
  (registered (body_email again) one
   /\ option_map body (res (serve (vendorRegister salt oid again) one))
      = Some (JStr "Email already taken")
   /\ forall j,
        option_map body (res (serve (vendorRegister salt oid again) one))
        <> Some (JObj [("error", j)]))
  /\
  (~ registered (body_email no_password) one
   /\ res (serve (vendorRegister salt oid no_password) one)
      = reply 500 internal_server_error
   /\ db (serve (vendorRegister salt oid no_password) one) = one).
Proof.
  split.
  - split; [exact ramesh_registered|]. split; [reflexivity|].
    intros j. vm_compute. discriminate.
  - split; [exact suresh_unregistered|]. split; reflexivity.
Qed.

Lemma vendorRegister_outcomes_witness :
  (registered (body_email again) one
   /\ res (serve (vendorRegister salt oid again) one)
      = reply 400 (JStr "Email already taken")
   /\ db (serve (vendorRegister salt oid again) one) = one)
  /\
  (~ registered (body_email suresh) one
   /\ res (serve (vendorRegister salt oid suresh) one)
      = reply 201 (JObj [("message", JStr "Vendor registered successfully")])
   /\ db (serve (vendorRegister salt oid suresh) one)
      = insert_vendor
          (Vendor.mk oid "Suresh" "suresh@example.com" (kdf "letmein" 10 salt) [])
          one)
  /\
  (~ registered (body_email no_password) one
   /\ body_password no_password = None
   /\ res (serve (vendorRegister salt oid no_password) one)
      = reply 500 internal_server_error
   /\ db (serve (vendorRegister salt oid no_password) one) = one).
Proof.
  split; [|split].
  - split; [exact ramesh_registered|].
    exact (proj1 (vendorRegister_outcomes salt oid again one)
                 ramesh_registered).
  - split; [exact suresh_unregistered|].
    refine (proj1 (proj2 (vendorRegister_outcomes salt oid suresh one))
                  suresh_unregistered "Suresh" "suresh@example.com" "letmein"
                  eq_refl _ eq_refl _ eq_refl _); compute_it.
  - split; [exact suresh_unregistered|]. split; [reflexivity|].
    exact (proj2 (proj2 (vendorRegister_outcomes salt oid no_password one))
                 suresh_unregistered (or_introl eq_refl)).
Defined.

Lemma vendorRegister_twice_witness :
  count_email "ramesh@example.com" one = 1%nat
  /\ res (serve (vendorRegister salt oid again) one)
     = reply 400 (JStr "Email already taken")
  /\ db (serve (vendorRegister salt oid again) one) = one
  /\ count_email "ramesh@example.com"
       (db (serve (vendorRegister salt oid again) one)) = 1%nat.
Proof.
  split; [reflexivity|].
  exact (vendorRegister_twice salt oid again one "ramesh@example.com"
           eq_refl eq_refl).
Defined.

Lemma vendorRegister_stores_hash_witness :
  check "letmein" (kdf "letmein" 10 salt) = true
  /\ check "letmein" "letmein" = false
  /\ exists v,
       find (email_is (Some "suresh@example.com"))
            (vendors (db (serve (vendorRegister salt oid suresh) one)))
       = Some v
       /\ Vendor.email v = "suresh@example.com"
       /\ check "letmein" (Vendor.password v) = true
       /\ Vendor.password v <> "letmein".
Proof.
  split; [compute_it|]. split; [compute_it|].
  refine (vendorRegister_stores_hash salt oid suresh one
            "Suresh" "suresh@example.com" "letmein"
            suresh_unregistered eq_refl _ eq_refl _ eq_refl _ _ _);
    compute_it.
Defined.

Lemma vendorLogin_failures_agree_witness :
  ~ registered (body_email stranger) one
  /\ check "guess" (Vendor.password ramesh) = false
  /\ serve (vendorLogin stranger) one
     = serve (vendorLogin wrong_password) one
  /\ res (serve (vendorLogin wrong_password) one)
     = reply 401 (JObj [("error", JStr "Invalid username or password")]).
Proof.
  assert (Hun : ~ registered (body_email stranger) one)
    by (intros (v & [<-|[]] & Heq); discriminate).
  split; [exact Hun|]. split; [compute_it|].
  refine (vendorLogin_failures_agree one stranger wrong_password
            ramesh "guess" Hun eq_refl eq_refl _).
  compute_it.
Defined.

Lemma vendorLogin_success_no_token_witness :
  check "strongpassword123" (Vendor.password ramesh) = true
  /\ exists r,
       res (serve (vendorLogin again) one) = Some r
       /\ status r = 200
       /\ body r = JObj [("success", JStr "Login successful")]
       /\ has_key "token" (body r) = false.
Proof.
  split; [compute_it|].
  refine (vendorLogin_success_no_token one again ramesh
            "strongpassword123" eq_refl eq_refl _).
  compute_it.
Defined.

Lemma issued_token_verifies_witness :
  parse token = Some (signed "65afbd23c09e1165afbd23c0" secret one_hour 1000)
  /\ ((exists c, jwt_verify token secret 4599 = Ok c
                 /\ vendorId c = "65afbd23c09e1165afbd23c0")
      /\ auth 4599 bearer dashboard
         = dashboard (set_vendorId bearer "65afbd23c09e1165afbd23c0"))
  /\ (jwt_verify token secret 4600 = Throw TokenExpiredError
      /\ auth 4600 bearer dashboard
         = res_status_json 403 (JObj [("error", JStr "Invalid token")])).
Proof.
  assert (Hparse : parse token
                   = Some (signed "65afbd23c09e1165afbd23c0" secret
                                  one_hour 1000)) by compute_it.
  assert (Hsp : has_space token = false) by compute_it.
  assert (Hne : token <> "") by compute_it.
  split; [exact Hparse|]. split.
  - refine (proj1 (issued_token_verifies
                     "65afbd23c09e1165afbd23c0" 1000 4599 bearer dashboard
                     Hparse Hsp Hne eq_refl) _).
    reflexivity.
  - refine (proj2 (issued_token_verifies
                     "65afbd23c09e1165afbd23c0" 1000 4600 bearer dashboard
                     Hparse Hsp Hne eq_refl) _).
    compute_it.
Defined.


Lemma two_unique_ids : unique_vendor_ids two.
Proof.
  unfold unique_vendor_ids. vm_compute.
  constructor; [intros [H|[]]; discriminate|].
  constructor; [intros []|constructor].
Defined.

Lemma two_firms_stored :
  forall r, In r (Vendor.firm mahesh) -> exists f, names_firm (firms two) r f.
Proof.
  intros r [<-|[<-|[]]].
  - exists hotel. split; [right; now left | reflexivity].
  - exists foods. split; [now left | reflexivity].
Defined.

Lemma getVendorById_outcomes_witness :
  (exists pv,
     getVendorById shouted two = Found pv
     /\ get_vendor_status (getVendorById shouted two) = 200
     /\ pv_id pv = "65afbd23c09e1165afbd23c4"
     /\ pv_userName pv = "Mahesh"
     /\ pv_email pv = "mahesh@example.com"
     /\ pv_password pv = Vendor.password mahesh
     /\ Forall2 (names_firm (firms two)) (Vendor.firm mahesh) (pv_firm pv))
  /\ (getVendorById absent two = NotFound
      /\ get_vendor_status (getVendorById absent two) = 404)
  /\ getVendorById anonymous two = InvalidId.
Proof.
  split; [|split].
  - destruct (proj1 (getVendorById_outcomes shouted two) eq_refl two_unique_ids
                mahesh (or_intror (or_introl eq_refl)) eq_refl)
      as (pv & Hfound & Hstatus & Hid & Hname & Hemail & Hpw & _ & Hall).
    exists pv. repeat (split; [assumption|]).
    exact (Hall two_firms_stored).
  - refine (proj1 (proj2 (getVendorById_outcomes absent two)) eq_refl _).
    intros v [<-|[<-|[]]]; reflexivity.
  - exact (proj1 (proj2 (proj2 (getVendorById_outcomes anonymous two)) eq_refl)).
Defined.

(** Both registrations of [race] pass the pre-check; the first save
    stores Suresh, the second is rejected by the unique index and the
    request ends in 500. *)
Lemma race_outcome :
  race
  = {| store :=
         {| vendors := [Vendor.mk oid "Suresh" "suresh@example.com"
                                  (kdf "letmein" 10 salt) []];
            firms := [] |};
       inflight :=
         [Replied {| status := 201;
                     body := JObj [("message",
                                    JStr "Vendor registered successfully")] |};
          Replied {| status := 500; body := internal_server_error |}] |}.
Proof.
  vm_compute. reflexivity.
Qed.

Lemma race_reachable : reachable race.
Proof.
  unfold race.
  repeat first [apply reachable_resume | apply reachable_arrive].
  apply reach_init.
Defined.

Lemma reachable_unique_emails_witness :
  reachable race /\ unique_emails (store race).
Proof.
  split; [exact race_reachable|].
  exact (reachable_unique_emails race race_reachable).
Defined.

(** The three ways a login ends: accepted, refused, and failed on a
    request without password. *)
Lemma vendorLogin_three_outcomes :
  option_map status (res (serve (vendorLogin again) one)) = Some 200
  /\ option_map status (res (serve (vendorLogin wrong_password) one)) = Some 401
  /\ option_map status
       (res (serve (vendorLogin (mkBody None (Some "ramesh@example.com") None))
                   one)) = Some 500.
Proof.
  split; [compute_it|]. split; compute_it.
Qed.

(** ** Further properties on concrete requests *)

Lemma suresh_not_namesake : ~ registered (Some "suresh@example.com") namesake.
Proof.
  intros (v & [<-|[]] & Heq). discriminate.
Defined.

Lemma vendorRegister_reads_emails_only_witness :
  res (serve (vendorRegister salt oid suresh) one)
  = res (serve (vendorRegister salt oid suresh) namesake)
  /\ console (serve (vendorRegister salt oid suresh) one)
     = console (serve (vendorRegister salt oid suresh) namesake).
Proof.
  apply (vendorRegister_reads_emails_only salt oid suresh one namesake).
  split; intros H; exfalso.
  - exact (suresh_unregistered H).
  - exact (suresh_not_namesake H).
Defined.

Lemma register_then_login_witness :
  res (serve (vendorLogin suresh) (db (serve (vendorRegister salt oid suresh) one)))
  = reply 200 (JObj [("success", JStr "Login successful")])
  /\ res (serve (vendorLogin (mkBody None (Some "suresh@example.com") (Some "guess")))
                (db (serve (vendorRegister salt oid suresh) one)))
     = reply 401 (JObj [("error", JStr "Invalid username or password")]).
Proof.
  split.
  - refine (eq_trans
              (register_then_login salt oid suresh one "Suresh"
                 "suresh@example.com" "letmein" suresh "letmein"
                 suresh_unregistered eq_refl _ eq_refl _ eq_refl _
                 eq_refl eq_refl) _); compute_it.
  - refine (eq_trans
              (register_then_login salt oid suresh one "Suresh"
                 "suresh@example.com" "letmein"
                 (mkBody None (Some "suresh@example.com") (Some "guess")) "guess"
                 suresh_unregistered eq_refl _ eq_refl _ eq_refl _
                 eq_refl eq_refl) _); compute_it.
Defined.

Lemma register_then_register_witness :
  res (serve (vendorRegister "AnotherSalt0000000000x" "65afbd23c09e1165afbd23c7"
                             no_password)
             (db (serve (vendorRegister salt oid suresh) one)))
  = reply 400 (JStr "Email already taken")
  /\ db (serve (vendorRegister "AnotherSalt0000000000x" "65afbd23c09e1165afbd23c7"
                               no_password)
               (db (serve (vendorRegister salt oid suresh) one)))
     = db (serve (vendorRegister salt oid suresh) one).
Proof.
  refine (register_then_register salt oid suresh one "Suresh"
            "suresh@example.com" "letmein" "AnotherSalt0000000000x"
            "65afbd23c09e1165afbd23c7" no_password
            suresh_unregistered eq_refl _ eq_refl _ eq_refl _ eq_refl);
    compute_it.
Defined.

Lemma late_duplicate_is_500_witness :
  email_taken "ramesh@example.com" (vendors one) = true
  /\ step_task (AwaitSave oid again (kdf "strongpassword123" 10 salt)) one
     = (Replied {| status := 500; body := internal_server_error |}, one).
Proof.
  split; [reflexivity|].
  exact (late_duplicate_is_500 oid again (kdf "strongpassword123" 10 salt) one
           "ramesh@example.com" eq_refl eq_refl).
Defined.

Lemma reachable_successes_witness :
  reachable race
  /\ successes (inflight race) = length (vendors (store race)).
Proof.
  split; [exact race_reachable|].
  exact (reachable_successes race race_reachable).
Defined.

Lemma auth_ignores_scheme_witness :
  auth 2000 basic dashboard
  = match jwt_verify token secret 2000 with
    | Ok decoded => dashboard (set_vendorId basic (vendorId decoded))
    | Throw _ => res_status_json 403 (JObj [("error", JStr "Invalid token")])
    end.
Proof.
  refine (auth_ignores_scheme 2000 basic dashboard "Basic" token _ _ _ eq_refl);
    compute_it.
Defined.

Lemma auth_needs_second_word_witness :
  auth 2000 bare dashboard
  = res_status_json 401 (JObj [("error", JStr "Token missing")])
  /\ auth 2000 doubled dashboard
     = res_status_json 401 (JObj [("error", JStr "Token missing")]).
Proof.
  pose proof (auth_needs_second_word 2000 bare dashboard) as [Hbare _].
  pose proof (auth_needs_second_word 2000 doubled dashboard) as [_ Hdoubled].
  split.
  - refine (Hbare token _ eq_refl). compute_it.
  - refine (Hdoubled "Bearer" token _ eq_refl). compute_it.
Defined.

Lemma issued_token_opens_dashboard_witness :
  res (serve (vendor_dashboard 4599 raw) one)
  = reply 200 (JObj [("message", JStr "Welcome Vendor")])
  /\ res (serve (vendor_dashboard 4600 raw) one)
     = reply 403 (JObj [("error", JStr "Invalid token")]).
Proof.
  assert (Hparse : parse token
                   = Some (signed "65afbd23c09e1165afbd23c0" secret one_hour 1000))
    by compute_it.
  assert (Hne : token <> "") by compute_it.
  split.
  - exact (issued_token_opens_dashboard "65afbd23c09e1165afbd23c0" 1000 4599
             raw one Hparse Hne eq_refl).
  - exact (issued_token_opens_dashboard "65afbd23c09e1165afbd23c0" 1000 4600
             raw one Hparse Hne eq_refl).
Defined.

Lemma register_then_findById_witness :
  is_object_id oid = true
  /\ lookup_vendor oid (vendors one) = None
  /\ fst (Vendor_findById_populate oid
            (fresh (db (serve (vendorRegister salt oid suresh) one))))
     = Ok (Some {| pv_id := oid; pv_userName := "Suresh";
                   pv_email := "suresh@example.com";
                   pv_password := kdf "letmein" 10 salt; pv_firm := [] |}).
Proof.
  split; [reflexivity|]. split; [reflexivity|].
  refine (register_then_findById salt oid suresh one "Suresh"
            "suresh@example.com" "letmein"
            suresh_unregistered eq_refl _ eq_refl _ eq_refl _ eq_refl eq_refl);
    compute_it.
Defined.

Lemma startup_logs_undefined_witness :
  In LogUndefined (startup_console (Rejected refused) true)
  /\ (forall entry,
        In entry (startup_console (Rejected refused) true) ->
        entry = LogUndefined \/ entry = LogStr "server connecting on 4000")
  /\ on_connect_server_js (Rejected refused)
     = LogStr "connect ECONNREFUSED 127.0.0.1:27017".
Proof.
  exact (startup_logs_undefined refused "connect ECONNREFUSED 127.0.0.1:27017"
           true eq_refl eq_refl).
Defined.
